(** * TruthFi: the dashboard page and the scoring engine it talks to

    The repository ships one program, [frontend/app/page.tsx], the React
    dashboard.  It is embedded below in [Module JS] (the JavaScript values
    the page computes with) and [Module Dashboard] (the component's state,
    its handlers and [analyzeToken]).

    The scoring engine behind [POST /api/analyze] is not part of the
    sources; [Module Engine] models the parts of it that the properties
    below talk about, following the wording of the specification. *)

From Stdlib Require Import String Ascii.
From Stdlib Require Import ZArith NArith QArith Qminmax.
From Stdlib Require Import List Bool Lia Permutation SetoidPermutation Sorted.
Import ListNotations.

Local Open Scope nat_scope.
Local Set Warnings "-register-all".

(** ** JavaScript values *)

Module JS.

(** A JavaScript string is a sequence of UTF-16 code units. *)
Definition code_unit := N.
Definition js_string := list code_unit.

(** A source literal made of ASCII characters only. *)
Definition lit (s : string) : js_string :=
  map N_of_ascii (list_ascii_of_string s).

Fixpoint str_eqb (s t : js_string) : bool :=
  match s, t with
  | [], [] => true
  | a :: s', b :: t' => N.eqb a b && str_eqb s' t'
  | _, _ => false
  end.

(** [s !== t] on strings. *)
Definition strict_neq (s t : js_string) : bool := negb (str_eqb s t).

(** ECMAScript WhiteSpace and LineTerminator code points, the characters
    [String.prototype.trim] strips.  All of them are in the basic plane,
    so each is one code unit. *)
Definition is_white_space (c : code_unit) : bool :=
  (N.eqb c 0x0009 || N.eqb c 0x000A || N.eqb c 0x000B || N.eqb c 0x000C
   || N.eqb c 0x000D || N.eqb c 0x0020 || N.eqb c 0x00A0 || N.eqb c 0x1680
   || (N.leb 0x2000 c && N.leb c 0x200A)
   || N.eqb c 0x2028 || N.eqb c 0x2029 || N.eqb c 0x202F
   || N.eqb c 0x205F || N.eqb c 0x3000 || N.eqb c 0xFEFF)%N.

Fixpoint trimStart (s : js_string) : js_string :=
  match s with
  | [] => []
  | c :: s' => if is_white_space c then trimStart s' else s
  end.

Definition trimEnd (s : js_string) : js_string := rev (trimStart (rev s)).

Definition trim (s : js_string) : js_string := trimEnd (trimStart s).

(** ToBoolean on a string: only the empty string is falsy. *)
Definition truthy_string (s : js_string) : bool :=
  match s with [] => false | _ :: _ => true end.

(** [a || b] on strings. *)
Definition or_else (a b : js_string) : js_string :=
  if truthy_string a then a else b.

(** A JavaScript number.  Every finite double is a rational, and the
    comparison operators on finite doubles are the order of the rationals;
    [NaN] compares false with everything. *)
Inductive number : Type :=
| NaN
| Num (q : Q)
| Infinity (negative : bool).

(** [x >= c] for a finite constant [c]. *)
Definition ge_const (x : number) (c : Q) : bool :=
  match x with
  | NaN => false
  | Num q => Qle_bool c q
  | Infinity negative => negb negative
  end.

(** [x <= c] for a finite constant [c]. *)
Definition le_const (x : number) (c : Q) : bool :=
  match x with
  | NaN => false
  | Num q => Qle_bool q c
  | Infinity negative => negative
  end.

(** The values [JSON.parse] produces.  An object is the list of its own
    properties, each key once. *)
Inductive json : Type :=
| JNull
| JBool (b : bool)
| JNumber (n : number)
| JString (s : js_string)
| JArray (elements : list json)
| JObject (properties : list (js_string * json)).

(** ToBoolean. *)
Definition truthy (v : json) : bool :=
  match v with
  | JNull => false
  | JBool b => b
  | JNumber NaN => false
  | JNumber (Num q) => negb (Qeq_bool q 0)
  | JNumber (Infinity _) => true
  | JString s => truthy_string s
  | JArray _ => true
  | JObject _ => true
  end.

Fixpoint lookup (key : js_string) (props : list (js_string * json))
  : option json :=
  match props with
  | [] => None
  | (k, v) :: rest => if str_eqb k key then Some v else lookup key rest
  end.

(** Reading property [key] of a parsed value: [None] is [undefined];
    reading a property of [null] throws a TypeError. *)
Inductive read : Type :=
| Throws
| Value (v : option json).

Definition get (v : json) (key : js_string) : read :=
  match v with
  | JNull => Throws
  | JObject props => Value (lookup key props)
  | _ => Value None
  end.

Section Conversions.

(** Number::toString, the engine's shortest round-trip printing. *)
Variable number_toString : number -> js_string.

(** ToString, as [new Error(v)] applies it to its argument; [None] when
    the conversion throws a TypeError.  An object goes through
    OrdinaryToPrimitive: a parsed object that has a [toString] key of its
    own hides [Object.prototype.toString] behind a value that cannot be
    called, [valueOf] gives the object back, and the conversion throws;
    any other object is [[object Object]].  An array is joined with
    commas, [null] elements being empty. *)
Fixpoint ToString (v : json) : option js_string :=
  match v with
  | JNull => Some (lit "null")
  | JBool true => Some (lit "true")
  | JBool false => Some (lit "false")
  | JNumber n => Some (number_toString n)
  | JString s => Some s
  | JArray elements =>
      (fix join (l : list json) : option js_string :=
         let element (x : json) : option js_string :=
           match x with JNull => Some [] | _ => ToString x end in
         match l with
         | [] => Some []
         | [x] => element x
         | x :: rest =>
             match element x, join rest with
             | Some first, Some others => Some (first ++ lit "," ++ others)
             | _, _ => None
             end
         end) elements
  | JObject properties =>
      match lookup (lit "toString") properties with
      | Some _ => None
      | None => Some (lit "[object Object]")
      end
  end.

End Conversions.

(** [s.replace(pattern, replacement)] for a pattern and a replacement of
    one code unit each (the replacement holding no [$]): the first
    occurrence is replaced, the others stay. *)
Fixpoint replace_first (pattern replacement : code_unit) (s : js_string)
  : js_string :=
  match s with
  | [] => []
  | c :: rest =>
      if N.eqb c pattern then replacement :: rest
      else c :: replace_first pattern replacement rest
  end.

End JS.

(** ** The dashboard, [frontend/app/page.tsx] *)

Module Dashboard.
Import JS.

Record TrendingToken : Type := mkTrendingToken {
  symbol : js_string;
  mentions : number
}.

(** The [useState] cells of [TruthFiDashboard], and the one [localStorage]
    entry the component reads and writes, [truthfi_recent_searches]
    ([None] while the key is not set; the stored text is the JSON of the
    list). *)
Record State : Type := mkState {
  tokenSymbol : js_string;
  loading : bool;
  result : json;
  error : js_string;
  trending : list TrendingToken;
  showTrending : bool;
  recentSearches : list js_string;
  loadingStatus : js_string;
  truthfi_recent_searches : option (list js_string)
}.

Definition initial : State :=
  mkState [] false JNull [] [] false [] [] None.

Definition setTokenSymbol (v : js_string) (st : State) : State :=
  mkState v (loading st) (result st) (error st) (trending st)
    (showTrending st) (recentSearches st) (loadingStatus st)
    (truthfi_recent_searches st).

Definition setLoading (v : bool) (st : State) : State :=
  mkState (tokenSymbol st) v (result st) (error st) (trending st)
    (showTrending st) (recentSearches st) (loadingStatus st)
    (truthfi_recent_searches st).

Definition setResult (v : json) (st : State) : State :=
  mkState (tokenSymbol st) (loading st) v (error st) (trending st)
    (showTrending st) (recentSearches st) (loadingStatus st)
    (truthfi_recent_searches st).

Definition setError (v : js_string) (st : State) : State :=
  mkState (tokenSymbol st) (loading st) (result st) v (trending st)
    (showTrending st) (recentSearches st) (loadingStatus st)
    (truthfi_recent_searches st).

Definition setShowTrending (v : bool) (st : State) : State :=
  mkState (tokenSymbol st) (loading st) (result st) (error st) (trending st)
    v (recentSearches st) (loadingStatus st) (truthfi_recent_searches st).

Definition setRecentSearches (v : list js_string) (st : State) : State :=
  mkState (tokenSymbol st) (loading st) (result st) (error st) (trending st)
    (showTrending st) v (loadingStatus st) (truthfi_recent_searches st).

Definition setLoadingStatus (v : js_string) (st : State) : State :=
  mkState (tokenSymbol st) (loading st) (result st) (error st) (trending st)
    (showTrending st) (recentSearches st) v (truthfi_recent_searches st).

(** [localStorage.setItem('truthfi_recent_searches', JSON.stringify(v))]. *)
Definition setItem (v : list js_string) (st : State) : State :=
  mkState (tokenSymbol st) (loading st) (result st) (error st) (trending st)
    (showTrending st) (recentSearches st) (loadingStatus st) (Some v).

(** The mount effect: recent searches are read back from [localStorage]. *)
Definition loadRecentSearches (st : State) : State :=
  match truthfi_recent_searches st with
  | Some saved => setRecentSearches saved st
  | None => st
  end.

(** [[token, ...recentSearches.filter(t => t !== token)].slice(0, 5)] *)
Definition updated (recentSearches : list js_string) (token : js_string)
  : list js_string :=
  firstn 5 (token :: filter (fun t => strict_neq t token) recentSearches).

(** The lists the page itself can hold: it starts from the empty list and
    every later list is one [saveRecentSearch] made. *)
Inductive saved_list : list js_string -> Prop :=
| saved_initial : saved_list []
| saved_next (l : list js_string) (token : js_string) :
    saved_list l -> saved_list (updated l token).

(** [saveRecentSearch].  [captured] is the render whose closure the call
    runs in: [recentSearches] is read from it, while the setters act on the
    state current at the time of the call.  The state is set before
    [setItem] is tried; when [setItem] throws, the exception is caught and
    logged. *)
Definition saveRecentSearch (captured : State) (setItem_throws : bool)
    (token : js_string) (st : State) : State :=
  let list := updated (recentSearches captured) token in
  let st := setRecentSearches list st in
  if setItem_throws then st else setItem list st.

(** What [fetch] hands to the page. *)
Record Request : Type := mkRequest {
  url : js_string;
  method : js_string;
  headers : list (js_string * js_string);
  body : json   (* the value given to [JSON.stringify] *)
}.

(** [await response.json()]: the body parses, or the promise rejects with
    an error carrying [message]. *)
Inductive json_outcome : Type :=
| BodyRejects (message : js_string)
| BodyParses (data : json).

(** [await fetch(...)]: the promise rejects (network failure) with an
    error carrying [message], or resolves to a response with its [ok] flag
    (status in the 2xx range) and body. *)
Inductive fetch_outcome : Type :=
| Rejects (message : js_string)
| Responds (ok : bool) (response_json : json_outcome).

(** What the world answers during one call of [analyzeToken]. *)
Record Environment : Type := mkEnvironment {
  reply : fetch_outcome;
  setItem_throws : bool
}.

(** One call of an event handler that awaits at most one [fetch]: either
    it returns after a state update, or it updates the state, issues the
    request and, once the request is settled, updates the state again. *)
Inductive Run : Type :=
| Return (update : State -> State)
| Await (before : State -> State) (request : Request)
    (after : Environment -> State -> State).

(** The requests a call issues. *)
Definition requests (r : Run) : list Request :=
  match r with
  | Return _ => []
  | Await _ request _ => [request]
  end.

(** The state after the call has run to its end, when nothing else touches
    the state in between. *)
Definition finish (r : Run) (env : Environment) (st : State) : State :=
  match r with
  | Return update => update st
  | Await before _ after => after env (before st)
  end.

(** Two calls that overlap: the second is made while the request of the
    first is pending, after the page went through [between] (the user
    typing, say).  The two answers arrive in either order:
    [first_answered_first] tells which. *)
Definition overlap (first : Run) (between : State -> State) (second : Run)
    (first_answered_first : bool) (env1 env2 : Environment) (st : State)
  : State :=
  match first, second with
  | Await before1 _ after1, Await before2 _ after2 =>
      let pending := before2 (between (before1 st)) in
      if first_answered_first then after2 env2 (after1 env1 pending)
      else after1 env1 (after2 env2 pending)
  | Await before1 _ after1, Return update2 =>
      after1 env1 (update2 (between (before1 st)))
  | Return update1, _ => finish second env2 (between (update1 st))
  end.

(** [getScoreColor] *)
Definition getScoreColor (score : number) : js_string :=
  if ge_const score 75 then lit "#10b981"
  else if ge_const score 55 then lit "#f59e0b"
  else if ge_const score 35 then lit "#f97316"
  else lit "#ef4444".

(** The text the [catch] clause of [analyzeToken] falls back to. *)
Definition generic_failure : js_string :=
  lit "Failed to analyze token. Make sure the backend is running.".

(** [getRiskColor] *)
Definition getRiskColor (level : js_string) : js_string :=
  if str_eqb level (lit "low") then lit "text-green-600"
  else if str_eqb level (lit "medium") then lit "text-yellow-600"
  else if str_eqb level (lit "high") then lit "text-orange-600"
  else if str_eqb level (lit "critical") then lit "text-red-600"
  else lit "text-gray-600".

(** [getRiskBgColor] *)
Definition getRiskBgColor (level : js_string) : js_string :=
  if str_eqb level (lit "low") then lit "bg-green-50 border-green-200"
  else if str_eqb level (lit "medium") then lit "bg-yellow-50 border-yellow-200"
  else if str_eqb level (lit "high") then lit "bg-orange-50 border-orange-200"
  else if str_eqb level (lit "critical") then lit "bg-red-50 border-red-200"
  else lit "bg-gray-50 border-gray-200".

(** The icons [getRiskIcon] chooses among, each rendered at [w-8 h-8]. *)
Inductive Icon : Type := CheckCircle | AlertTriangle | AlertCircle.

(** [getRiskIcon] *)
Definition getRiskIcon (level : js_string) : Icon :=
  if str_eqb level (lit "low") then CheckCircle
  else if str_eqb level (lit "medium") then AlertTriangle
  else AlertCircle.

(** What the page renders of its state: the conditions that guard the
    error box ([error && ...]), the loading card ([loading && ...]), the
    results ([result && !loading && ...]), and the [disabled] attribute of
    the Analyze button ([loading || !tokenSymbol.trim()]). *)
Definition errorShown (st : State) : bool := truthy_string (error st).

Definition loadingShown (st : State) : bool := loading st.

(** The guard of the results block, and no more than the guard: the
    block it lets through reads [result.recommendation.message],
    [result.metrics] and other fields, and throws when the body lacks
    them, so the guard holding does not mean that results are seen. *)
Definition resultsGuard (st : State) : bool :=
  truthy (result st) && negb (loading st).

Definition analyzeDisabled (st : State) : bool :=
  loading st || negb (truthy_string (trim (tokenSymbol st))).

(** The sentiment as the results show it:
    [result.metrics.sentiment.replace('_', ' ')]. *)
Definition displaySentiment (sentiment : js_string) : js_string :=
  replace_first 0x5F%N 0x20%N sentiment.

(** What a call of [loadTrending] does once its [fetch] is settled: it
    calls [setTrending(tokens)] and [setShowTrending(true)], or, an
    exception having been caught and logged, calls no setter at all. *)
Inductive TrendingOutcome : Type :=
| Untouched
| Shown (tokens : json).

(** [data.trending.slice(0, 10)]: arrays and strings have a [slice]; on
    anything else the call throws ([None]). *)
Definition trending_slice (data : json) : option json :=
  match get data (lit "trending") with
  | Value (Some (JArray tokens)) => Some (JArray (firstn 10 tokens))
  | Value (Some (JString s)) => Some (JString (firstn 10 s))
  | _ => None
  end.

(** The [try] block of [loadTrending] from the settled [fetch] on.  The
    status of the response is not looked at. *)
Definition loadTrending_settle (reply : fetch_outcome) : TrendingOutcome :=
  match reply with
  | Rejects _ => Untouched
  | Responds _ (BodyRejects _) => Untouched
  | Responds _ (BodyParses data) =>
      match trending_slice data with
      | Some tokens => Shown tokens
      | None => Untouched
      end
  end.

Section Page.

(** [String.prototype.toUpperCase]. *)
Variable toUpperCase : js_string -> js_string.

(** Number::toString. *)
Variable number_toString : number -> js_string.

(** The message of the TypeError for reading a property of [null]. *)
Variable null_read_message : js_string.

(** The message of the TypeError for an object that cannot be converted
    to a primitive value. *)
Variable not_primitive_message : js_string.

(** [process.env.NEXT_PUBLIC_API_URL], empty when it is not set. *)
Variable NEXT_PUBLIC_API_URL : js_string.

Definition API_URL : js_string :=
  or_else NEXT_PUBLIC_API_URL (lit "http://localhost:8000").

(** [onChange] of the input: [setTokenSymbol(e.target.value.toUpperCase())] *)
Definition onChange (value : js_string) (st : State) : State :=
  setTokenSymbol (toUpperCase value) st.

(** [onClick] of a recent search. *)
Definition selectRecent (token : js_string) (st : State) : State :=
  setError [] (setTokenSymbol token st).

(** [onClick] of a trending token. *)
Definition selectTrending (token : TrendingToken) (st : State) : State :=
  setError [] (setShowTrending false (setTokenSymbol (symbol token) st)).

(** [errorData.detail || 'Analysis failed'] *)
Definition detail_or_default (detail : option json) : json :=
  match detail with
  | Some d => if truthy d then d else JString (lit "Analysis failed")
  | None => JString (lit "Analysis failed")
  end.

(** The [catch] clause of [analyzeToken], for an error with [message]. *)
Definition catch (message : js_string) (st : State) : State :=
  setError
    (or_else message
       (lit "Failed to analyze token. Make sure the backend is running."))
    st.

(** The [finally] clause of [analyzeToken]. *)
Definition finally (st : State) : State :=
  setLoadingStatus [] (setLoading false st).

(** The [try] block of [analyzeToken] from the settled [fetch] on. *)
Definition settle (captured : State) (env : Environment) (st : State)
  : State :=
  match reply env with
  | Rejects message => catch message st
  | Responds false (BodyRejects message) => catch message st
  | Responds false (BodyParses errorData) =>
      match get errorData (lit "detail") with
      | Throws => catch null_read_message st
      | Value detail =>
          match ToString number_toString (detail_or_default detail) with
          | Some message => catch message st
          | None => catch not_primitive_message st
          end
      end
  | Responds true (BodyRejects message) => catch message st
  | Responds true (BodyParses data) =>
      saveRecentSearch captured (setItem_throws env)
        (toUpperCase (tokenSymbol captured)) (setResult data st)
  end.

(** [analyzeToken], called in the render whose state is [captured].  The
    three status timers only change [loadingStatus] while the request is
    pending and are cleared in [finally]; they are left out. *)
Definition analyzeToken (captured : State) : Run :=
  if negb (truthy_string (trim (tokenSymbol captured))) then
    Return (setError (lit "Please enter a token symbol"))
  else
    Await
      (fun st =>
         setLoadingStatus
           ([0xD83D; 0xDD0D]%N ++ lit " Searching Reddit posts...")
           (setResult JNull (setError [] (setLoading true st))))
      (mkRequest (API_URL ++ lit "/api/analyze") (lit "POST")
         [(lit "Content-Type", lit "application/json")]
         (JObject
            [(lit "token_symbol", JString (toUpperCase (tokenSymbol captured)));
             (lit "post_limit", JNumber (Num 50))]))
      (fun env st => finally (settle captured env st)).

(** [onKeyPress] of the input: [e.key === 'Enter' && analyzeToken()];
    [None] when [analyzeToken] is not called. *)
Definition onKeyPress (key : js_string) (captured : State) : option Run :=
  if str_eqb key (lit "Enter") then Some (analyzeToken captured) else None.

(** The address [loadTrending] fetches. *)
Definition loadTrending_url : js_string := API_URL ++ lit "/api/trending".

End Page.

End Dashboard.

(** ** The scoring engine behind [POST /api/analyze]

    None of the engine's code is in the repository.  Everything in this
    module is modelled from the specification; what the specification
    leaves open (the lexical matching, the similarity measure, the
    reporting thresholds, the texts and severities of the flags) is a
    variable of the section.  The score itself, whose formula the
    specification leaves open, and the handling of a request as a whole are
    not modelled. *)

Module Engine.

Inductive Source : Type := reddit | telegram | twitter.

(** Modelled from the spec: the [Post] entity (the code that defines it is
    not in the sources). *)
Record Post : Type := mkPost {
  id : string;
  source : Source;
  author_id : string;
  text : string;
  created_at : Z;
  upvotes : Z;
  comment_count : Z;
  token_symbol : string
}.

Inductive RiskLevel : Type := low | medium | high | critical.

(** Modelled from the spec: the scam-pattern categories of the
    ContentPatternDetector's catalog. *)
Inductive Category : Type :=
| guaranteed_returns
| urgency_language
| unsolicited_dm_pattern
| impersonation_marker
| suspicious_link.

Definition catalog : list Category :=
  [guaranteed_returns; urgency_language; unsolicited_dm_pattern;
   impersonation_marker; suspicious_link].

(** Modelled from the spec: what a red flag reports, a triggered pattern
    category or a coordination or credibility finding. *)
Inductive Flag : Type :=
| pattern (c : Category)
| coordination_finding
| credibility_finding.

(** Modelled from the spec: the configuration surface, as far as the
    properties below depend on it. *)
Record Config : Type := mkConfig {
  low_from : Q;             (* risk bands: score >= low_from is low risk, *)
  medium_from : Q;          (* >= medium_from medium, *)
  high_from : Q;            (* >= high_from high, below it critical *)
  window_seconds : Z;       (* coordination time window *)
  burst_fraction : Q;       (* threshold fraction of the temporal burst *)
  source_cap : Source -> nat (* per-source fetch limit *)
}.

(** The documented risk bands: 75, 55, 35. *)
Definition documented (window : Z) (fraction : Q) (cap : Source -> nat)
  : Config :=
  mkConfig 75 55 35 window fraction cap.

(** Modelled from the spec: the bands of [risk_level] over the score. *)
Definition risk_level_of (cfg : Config) (score : Q) : RiskLevel :=
  if Qle_bool (low_from cfg) score then low
  else if Qle_bool (medium_from cfg) score then medium
  else if Qle_bool (high_from cfg) score then high
  else critical.

(** The documented bands, as intervals of the score. *)
Definition in_band (level : RiskLevel) (score : Q) : Prop :=
  match level with
  | low => 75 <= score
  | medium => 55 <= score /\ score < 75
  | high => 35 <= score /\ score < 55
  | critical => score < 35
  end%Q.

(** Modelled from the spec: the [CoordinationVerdict] entity. *)
Record CoordinationVerdict : Type := mkVerdict {
  coordinated : bool;
  cluster_count : nat;
  max_cluster_size : nat;
  time_window_seconds : Z
}.

Fixpoint maximum (l : list nat) : nat :=
  match l with
  | [] => 0
  | n :: rest => Nat.max n (maximum rest)
  end.

Section Pipeline.

(** Whether a text matches a category of the catalog, after the
    case and obfuscation normalization. *)
Variable matches : Category -> string -> bool.

(** Whether two texts are near-duplicates: similarity above the fixed
    threshold. *)
Variable near_duplicate : string -> string -> bool.

(** The reporting thresholds of the two findings. *)
Variable reports_coordination : CoordinationVerdict -> bool.
Variable reports_credibility : list Post -> bool.

(** The text and the severity of each flag. *)
Variable flag_text : Flag -> string.
Variable severity : Flag -> nat.

Variable cfg : Config.

(** *** CoordinationDetector *)

(** Modelled from the spec: a similarity edge, near-duplicate texts of
    distinct authors. *)
Definition linked (p q : Post) : bool :=
  negb (String.eqb (author_id p) (author_id q))
  && near_duplicate (text p) (text q).

Definition touches (p : Post) (cluster : list Post) : bool :=
  existsb (linked p) cluster.

(** Modelled from the spec: the union of [p] with every cluster it has an
    edge to, that is, the disjoint sets of the union-find once [p] is
    added. *)
Definition union (p : Post) (clusters : list (list Post))
  : list (list Post) :=
  (p :: concat (filter (touches p) clusters))
  :: filter (fun c => negb (touches p c)) clusters.

(** Modelled from the spec: template similarity, the connected components
    of the similarity edges. *)
Definition clusters (posts : list Post) : list (list Post) :=
  fold_left (fun cs p => union p cs) posts [].

Definition in_window (t : Z) (p : Post) : bool :=
  (t <=? created_at p)%Z && (created_at p <=? t + window_seconds cfg)%Z.

(** The distinct authors posting inside the window that opens at [t]. *)
Definition authors_in_window (posts : list Post) (t : Z) : list string :=
  nodup string_dec (map author_id (filter (in_window t) posts)).

(** Modelled from the spec: temporal burst, more than the threshold
    fraction of the posts comes from distinct authors inside one window. *)
Definition temporal_burst (posts : list Post) : bool :=
  existsb
    (fun p =>
       negb (Qle_bool
               (inject_Z (Z.of_nat
                  (length (authors_in_window posts (created_at p)))))
               (burst_fraction cfg * inject_Z (Z.of_nat (length posts)))))
    posts.

(** Modelled from the spec: [CoordinationDetector.detect]. *)
Definition detect (posts : list Post) : CoordinationVerdict :=
  let cs := clusters posts in
  let largest := maximum (map (@length Post) cs) in
  mkVerdict (temporal_burst posts || (2 <=? largest))
    (length cs) largest (window_seconds cfg).

(** *** Red flags *)

Definition matched (p : Post) : list Category :=
  filter (fun c => matches c (text p)) catalog.

(** Modelled from the spec: every flag that is triggered, with
    repetitions: the pattern categories each post matches, then the two
    findings when they are over their reporting thresholds. *)
Definition triggered (posts : list Post) (v : CoordinationVerdict)
  : list Flag :=
  flat_map (fun p => map pattern (matched p)) posts
  ++ (if reports_coordination v then [coordination_finding] else [])
  ++ (if reports_credibility posts then [credibility_finding] else []).

(** Modelled from the spec: de-duplication, one flag per text. *)
Fixpoint dedupe (flags : list Flag) : list Flag :=
  match flags with
  | [] => []
  | f :: rest =>
      if existsb (fun g => String.eqb (flag_text g) (flag_text f)) rest
      then dedupe rest
      else f :: dedupe rest
  end.

(** The priority order: highest severity first. *)
Definition by_severity (a b : Flag) : Prop := severity b <= severity a.

(** A flag goes behind the flags of higher severity and in front of all
    others, those of its own severity included. *)
Fixpoint place (f : Flag) (sorted : list Flag) : list Flag :=
  match sorted with
  | [] => [f]
  | g :: rest =>
      if severity f <? severity g then g :: place f rest else f :: sorted
  end.

(** Modelled from the spec: the stable priority order, highest severity
    first; flags of one severity keep the order they were triggered in. *)
Fixpoint prioritize (flags : list Flag) : list Flag :=
  match flags with
  | [] => []
  | f :: rest => place f (prioritize rest)
  end.

(** Modelled from the spec: the flags behind [red_flags], the triggered
    ones, de-duplicated, in priority order. *)
Definition red_flag_items (posts : list Post) (v : CoordinationVerdict)
  : list Flag :=
  prioritize (dedupe (triggered posts v)).

(** Modelled from the spec: the [red_flags] of a result, as the
    ScoreAggregator assembles them from the posts and the coordination
    verdict. *)
Definition red_flags (posts : list Post) (v : CoordinationVerdict)
  : list string :=
  map flag_text (red_flag_items posts v).

End Pipeline.

End Engine.

(** ** Sample inputs

    Concrete instances of the variables above and a few inputs, for the
    examples that follow the theorems. *)

Module Samples.
Import JS.

(** [toUpperCase] on the letters a to z; the other code units of an ASCII
    string are left as they are. *)
Definition upper_unit (c : code_unit) : code_unit :=
  if (N.leb 97 c && N.leb c 122)%N then (c - 32)%N else c.

Definition toUpperCase_ascii (s : js_string) : js_string := map upper_unit s.

(** The printing of the numbers that are not finite; no example prints a
    finite one. *)
Definition number_toString_special (n : number) : js_string :=
  match n with
  | NaN => lit "NaN"
  | Infinity false => lit "Infinity"
  | Infinity true => lit "-Infinity"
  | Num _ => []
  end.

Definition null_read_message : js_string :=
  lit "Cannot read properties of null (reading 'detail')".

Definition not_primitive_message : js_string :=
  lit "Cannot convert object to primitive value".

Definition analyzeToken : Dashboard.State -> Dashboard.Run :=
  Dashboard.analyzeToken toUpperCase_ascii number_toString_special
    null_read_message not_primitive_message [].

(** The page after [btc] was typed, with two earlier searches. *)
Definition typed_btc : Dashboard.State :=
  Dashboard.onChange toUpperCase_ascii (lit "btc")
    (Dashboard.setRecentSearches [lit "ETH"; lit "BTC"] Dashboard.initial).

(** The page after [!!!] was typed. *)
Definition typed_marks : Dashboard.State :=
  Dashboard.onChange toUpperCase_ascii (lit "!!!") Dashboard.initial.

(** The page with only blanks in the input. *)
Definition typed_blanks : Dashboard.State :=
  Dashboard.onChange toUpperCase_ascii (lit "  ") Dashboard.initial.

(** The request [analyzeToken] is expected to issue for it. *)
Definition analyze_btc : Dashboard.Request :=
  Dashboard.mkRequest (lit "http://localhost:8000/api/analyze") (lit "POST")
    [(lit "Content-Type", lit "application/json")]
    (JObject [(lit "token_symbol", JString (lit "BTC"));
              (lit "post_limit", JNumber (Num 50))]).

Definition not_ok (errorData : json) : Dashboard.Environment :=
  Dashboard.mkEnvironment
    (Dashboard.Responds false (Dashboard.BodyParses errorData)) false.

Definition no_data : json :=
  JObject [(lit "detail", JString (lit "No data found for token BTC"))].

Definition empty_detail : json := JObject [(lit "detail", JString [])].

(** Engine side: texts are near-duplicates when their lengths differ by
    at most two. *)
Definition contains (needle text : string) : bool :=
  match String.index 0 needle text with Some _ => true | None => false end.

Definition matches (c : Engine.Category) (text : string) : bool :=
  match c with
  | Engine.guaranteed_returns => contains "guaranteed" text
  | Engine.urgency_language => contains "now" text
  | Engine.unsolicited_dm_pattern => contains "dm me" text
  | Engine.impersonation_marker => contains "official" text
  | Engine.suspicious_link => contains "http" text
  end.

Definition near_duplicate (a b : string) : bool :=
  (String.length a - String.length b <=? 2)
  && (String.length b - String.length a <=? 2).

Definition flag_text (f : Engine.Flag) : string :=
  match f with
  | Engine.pattern Engine.guaranteed_returns => "Guaranteed returns promised"
  | Engine.pattern Engine.urgency_language => "Artificial urgency"
  | Engine.pattern Engine.unsolicited_dm_pattern => "Unsolicited promotion"
  | Engine.pattern Engine.impersonation_marker => "Impersonation"
  | Engine.pattern Engine.suspicious_link => "Suspicious link"
  | Engine.coordination_finding => "Coordinated campaign"
  | Engine.credibility_finding => "Low-credibility accounts"
  end.

Definition severity (f : Engine.Flag) : nat :=
  match f with
  | Engine.coordination_finding => 9
  | Engine.pattern Engine.guaranteed_returns => 8
  | Engine.pattern Engine.impersonation_marker => 7
  | Engine.credibility_finding => 6
  | Engine.pattern Engine.suspicious_link => 5
  | Engine.pattern Engine.unsolicited_dm_pattern => 4
  | Engine.pattern Engine.urgency_language => 3
  end.

Definition cfg : Engine.Config := Engine.documented 300 (1 # 2) (fun _ => 100).

Definition post (id author text : string) (at_second : Z) : Engine.Post :=
  Engine.mkPost id Engine.reddit author text at_second 1 0 "BTC".

Definition post_a : Engine.Post := post "a" "alice" "buy" 0.
Definition post_b : Engine.Post := post "b" "bob" "buy now" 10.
Definition post_c : Engine.Post := post "c" "carol" "buy x" 20.

Definition detect : list Engine.Post -> Engine.CoordinationVerdict :=
  Engine.detect near_duplicate cfg.

Definition red_flags
  : list Engine.Post -> Engine.CoordinationVerdict -> list string :=
  Engine.red_flags matches Engine.coordinated (fun _ => false) flag_text
    severity.

(** A page whose store holds a list with an entry twice. *)
Definition stored_twice : Dashboard.State :=
  Dashboard.setItem [lit "X"; lit "X"; lit "Y"] Dashboard.initial.

(** The same page while an analysis is under way. *)
Definition loading_btc : Dashboard.State :=
  Dashboard.setLoading true typed_btc.

Definition ok (data : json) : Dashboard.Environment :=
  Dashboard.mkEnvironment
    (Dashboard.Responds true (Dashboard.BodyParses data)) false.

Definition validation_error : json :=
  JObject [(lit "detail", JObject [(lit "msg", JString (lit "field required"))])].

(** Two renders of a page without recent searches: [sol] was typed, then,
    with an analysis of it under way, [doge]. *)
Definition typed_sol : Dashboard.State :=
  Dashboard.onChange toUpperCase_ascii (lit "sol") Dashboard.initial.

Definition typed_doge : Dashboard.State :=
  Dashboard.onChange toUpperCase_ascii (lit "doge")
    (Dashboard.setLoading true typed_sol).

Definition toString_detail : json :=
  JObject [(lit "detail", JObject [(lit "toString", JString (lit "x"))])].

Definition trending_btc : Dashboard.TrendingToken :=
  Dashboard.mkTrendingToken (lit "btc") (Num 12).

End Samples.

(** * Properties *)

Import JS.

(** ** Strings *)

Lemma str_eqb_eq (s t : js_string) : str_eqb s t = true <-> s = t.
Proof.
  revert t; induction s as [|a s IH]; intros [|b t]; simpl;
    try (split; [discriminate | congruence]); try tauto.
  rewrite andb_true_iff, N.eqb_eq, IH.
  split; [intros [-> ->]; reflexivity | intros H; inversion H; auto].
Qed.

Lemma strict_neq_true (s t : js_string) : strict_neq s t = true <-> s <> t.
Proof.
  unfold strict_neq. rewrite negb_true_iff, <- not_true_iff_false, str_eqb_eq.
  tauto.
Qed.

Lemma trimStart_blank (s : js_string) :
  trimStart s = [] <-> forallb is_white_space s = true.
Proof.
  induction s as [|c s IH]; simpl; [tauto|].
  destruct (is_white_space c); simpl; [exact IH|].
  split; discriminate.
Qed.

Lemma trimStart_head (s : js_string) (c : code_unit) (r : js_string) :
  trimStart s = c :: r -> is_white_space c = false.
Proof.
  induction s as [|d s IH]; simpl; [discriminate|].
  destruct (is_white_space d) eqn:E; [exact IH|].
  intros H; inversion H; subst; exact E.
Qed.

(** [s.trim()] is empty exactly when [s] is empty or whitespace only. *)
Lemma trim_blank (s : js_string) :
  trim s = [] <-> forallb is_white_space s = true.
Proof.
  unfold trim, trimEnd. rewrite <- trimStart_blank. split.
  - intros H. apply (f_equal (@rev code_unit)) in H.
    rewrite rev_involutive in H. simpl in H.
    apply trimStart_blank in H. rewrite forallb_forall in H.
    destruct (trimStart s) as [|c r] eqn:E; [reflexivity|].
    apply trimStart_head in E.
    rewrite (H c) in E; [discriminate|].
    apply in_rev. rewrite rev_involutive. left; reflexivity.
  - intros ->. reflexivity.
Qed.

Lemma or_else_truthy (a b : js_string) :
  truthy_string a = true -> or_else a b = a.
Proof. unfold or_else. intros ->. reflexivity. Qed.

(** ** Recent searches *)

Lemma filter_length_le {A} (f : A -> bool) (l : list A) :
  length (filter f l) <= length l.
Proof. induction l as [|x l IH]; simpl; [|destruct (f x); simpl]; lia. Qed.

Lemma filter_length_lt {A} (f : A -> bool) (l : list A) (x : A) :
  In x l -> f x = false -> length (filter f l) < length l.
Proof.
  induction l as [|y l IH]; simpl; [tauto|].
  intros [->|Hin] Hx.
  - rewrite Hx. pose proof (filter_length_le f l). lia.
  - specialize (IH Hin Hx). destruct (f y); simpl; lia.
Qed.

Lemma NoDup_firstn {A} (n : nat) (l : list A) : NoDup l -> NoDup (firstn n l).
Proof.
  intros H. rewrite <- (firstn_skipn n l) in H.
  exact (NoDup_app_remove_r _ _ H).
Qed.

Lemma In_firstn {A} (n : nat) (l : list A) (x : A) :
  In x (firstn n l) -> In x l.
Proof.
  intros H. rewrite <- (firstn_skipn n l). apply in_or_app. left; exact H.
Qed.

Lemma updated_eq (l : list js_string) (token : js_string) :
  Dashboard.updated l token
  = token :: firstn 4 (filter (fun t => strict_neq t token) l).
Proof. reflexivity. Qed.

Lemma updated_NoDup (l : list js_string) (token : js_string) :
  NoDup l -> NoDup (Dashboard.updated l token).
Proof.
  intros H. rewrite updated_eq. constructor.
  - intros Hin. apply In_firstn, filter_In in Hin.
    destruct Hin as [_ Hneq]. apply strict_neq_true in Hneq. congruence.
  - apply NoDup_firstn, NoDup_filter, H.
Qed.

Lemma saved_list_NoDup (l : list js_string) :
  Dashboard.saved_list l -> NoDup l /\ length l <= 5.
Proof.
  induction 1 as [|l token _ [IH _]].
  - split; [constructor | simpl; lia].
  - split; [apply updated_NoDup, IH | apply firstn_le_length].
Qed.

(** C9, amended.  [saveRecentSearch] leaves a list of recent searches that begins
    with the saved token and has at most five entries; it has no
    duplicates whenever the list it started from had none, as is the case
    of every list the page itself made; a token that was already listed is
    moved to the front (the others keep their order) and the list does not
    grow. *)
Theorem saveRecentSearch_recent_list
    (captured cur : Dashboard.State) (throws : bool) (token : js_string) :
  let before := Dashboard.recentSearches captured in
  let saved :=
    Dashboard.recentSearches
      (Dashboard.saveRecentSearch captured throws token cur) in
  saved = token :: firstn 4 (filter (fun t => strict_neq t token) before)
  /\ hd_error saved = Some token
  /\ length saved <= 5
  /\ (NoDup before -> NoDup saved)
  /\ (Dashboard.saved_list before -> NoDup saved)
  /\ (In token before -> length saved <= length before).
Proof.
  intros before saved.
  assert (Hs : saved = Dashboard.updated before token)
    by (unfold saved, Dashboard.saveRecentSearch; destruct throws; reflexivity).
  rewrite Hs. split; [reflexivity|]. split; [reflexivity|].
  split; [|split; [|split]].
  - apply firstn_le_length.
  - apply updated_NoDup.
  - intros H. apply updated_NoDup, saved_list_NoDup, H.
  - intros Hin. rewrite updated_eq. cbn [length]. rewrite length_firstn.
    assert (strict_neq token token = false) as Hself.
    { apply not_true_iff_false. rewrite strict_neq_true. tauto. }
    pose proof (filter_length_lt (fun t => strict_neq t token) before token
                  Hin Hself).
    lia.
Qed.

Section DashboardProperties.

Variable toUpperCase : js_string -> js_string.
Variable number_toString : number -> js_string.
Variable null_read_message : js_string.
Variable not_primitive_message : js_string.
Variable NEXT_PUBLIC_API_URL : js_string.

Local Abbreviation analyzeToken :=
  (Dashboard.analyzeToken toUpperCase number_toString null_read_message
     not_primitive_message NEXT_PUBLIC_API_URL).

Lemma analyzeToken_blank (captured : Dashboard.State) :
  forallb is_white_space (Dashboard.tokenSymbol captured) = true ->
  analyzeToken captured
  = Dashboard.Return (Dashboard.setError (lit "Please enter a token symbol")).
Proof.
  intros H. apply trim_blank in H.
  unfold Dashboard.analyzeToken. rewrite H. reflexivity.
Qed.

Lemma analyzeToken_request (captured : Dashboard.State) :
  forallb is_white_space (Dashboard.tokenSymbol captured) = false ->
  exists before request after,
    analyzeToken captured = Dashboard.Await before request after.
Proof.
  intros H. unfold Dashboard.analyzeToken.
  destruct (trim (Dashboard.tokenSymbol captured)) eqn:E.
  - apply trim_blank in E. congruence.
  - simpl. eauto.
Qed.


(** C10.  Every request [analyzeToken] issues carries, as [token_symbol],
    the upper-case form of the symbol held by the input, which [onChange]
    had already upper-cased when it was typed, and, as [post_limit], 50. *)
Theorem analyzeToken_request_body
    (captured : Dashboard.State) (request : Dashboard.Request) :
  In request (Dashboard.requests (analyzeToken captured)) ->
  Dashboard.body request
  = JObject
      [(lit "token_symbol",
        JString (toUpperCase (Dashboard.tokenSymbol captured)));
       (lit "post_limit", JNumber (Num 50))]
  /\ (forall typed st,
        captured = Dashboard.onChange toUpperCase typed st ->
        get (Dashboard.body request) (lit "token_symbol")
        = Value (Some (JString (toUpperCase (toUpperCase typed)))))
  /\ get (Dashboard.body request) (lit "post_limit")
     = Value (Some (JNumber (Num 50))).
Proof.
  unfold Dashboard.analyzeToken.
  destruct (negb (truthy_string (trim (Dashboard.tokenSymbol captured))));
    simpl; [tauto|].
  intros [<-|[]]. simpl. repeat split.
  intros typed st ->. reflexivity.
Qed.

(** What a non-2xx response whose body parses leaves on the page. *)
Lemma analyzeToken_not_ok
    (captured cur : Dashboard.State) (env : Dashboard.Environment)
    (errorData : json) (detail : option json) :
  forallb is_white_space (Dashboard.tokenSymbol captured) = false ->
  Dashboard.reply env
  = Dashboard.Responds false (Dashboard.BodyParses errorData) ->
  get errorData (lit "detail") = Value detail ->
  let final := Dashboard.finish (analyzeToken captured) env cur in
  Dashboard.result final = JNull
  /\ Dashboard.error final
     = or_else
         (match
            ToString number_toString (Dashboard.detail_or_default detail)
          with
          | Some message => message
          | None => not_primitive_message
          end)
         (lit "Failed to analyze token. Make sure the backend is running.").
Proof.
  intros Hsym Hreply Hget.
  unfold Dashboard.analyzeToken.
  destruct (trim (Dashboard.tokenSymbol captured)) eqn:E.
  - apply trim_blank in E. congruence.
  - simpl. unfold Dashboard.settle. rewrite Hreply, Hget.
    destruct (ToString number_toString (Dashboard.detail_or_default detail));
      split; reflexivity.
Qed.

(** C8, amended.  After a non-2xx response whose body parses, the page
    shows the body's [detail] when it is a non-empty string and
    'Analysis failed' when [detail] is absent or the empty string; the
    result stays empty ([null]). *)
Theorem analyzeToken_error_detail
    (captured cur : Dashboard.State) (env : Dashboard.Environment)
    (errorData : json) :
  forallb is_white_space (Dashboard.tokenSymbol captured) = false ->
  Dashboard.reply env
  = Dashboard.Responds false (Dashboard.BodyParses errorData) ->
  let final := Dashboard.finish (analyzeToken captured) env cur in
  Dashboard.result final = JNull
  /\ (forall detail,
        get errorData (lit "detail") = Value (Some (JString detail)) ->
        detail <> [] -> Dashboard.error final = detail)
  /\ (get errorData (lit "detail") = Value (Some (JString [])) ->
      Dashboard.error final = lit "Analysis failed")
  /\ (get errorData (lit "detail") = Value None ->
      Dashboard.error final = lit "Analysis failed").
Proof.
  intros Hsym Hreply final. split; [|split; [|split]].
  - unfold final, Dashboard.analyzeToken.
    destruct (trim (Dashboard.tokenSymbol captured)) eqn:E;
      [apply trim_blank in E; congruence|].
    simpl. unfold Dashboard.settle. rewrite Hreply.
    destruct (get errorData (lit "detail")) as [|detail]; [reflexivity|].
    destruct (ToString number_toString (Dashboard.detail_or_default detail));
      reflexivity.
  - intros detail G Hne. unfold final.
    rewrite (proj2 (analyzeToken_not_ok captured cur env errorData _
                      Hsym Hreply G)).
    destruct detail as [|c r]; [congruence|]. reflexivity.
  - intros G. unfold final.
    rewrite (proj2 (analyzeToken_not_ok captured cur env errorData _
                      Hsym Hreply G)).
    reflexivity.
  - intros G. unfold final.
    rewrite (proj2 (analyzeToken_not_ok captured cur env errorData _
                      Hsym Hreply G)).
    reflexivity.
Qed.

(** A 2xx response whose body parses: the body becomes the result and the
    upper-cased symbol is saved among the recent searches. *)
Lemma analyzeToken_ok
    (captured cur : Dashboard.State) (env : Dashboard.Environment)
    (data : json) :
  forallb is_white_space (Dashboard.tokenSymbol captured) = false ->
  Dashboard.reply env = Dashboard.Responds true (Dashboard.BodyParses data) ->
  let final := Dashboard.finish (analyzeToken captured) env cur in
  Dashboard.result final = data
  /\ Dashboard.error final = []
  /\ Dashboard.recentSearches final
     = Dashboard.updated (Dashboard.recentSearches captured)
         (toUpperCase (Dashboard.tokenSymbol captured)).
Proof.
  intros Hsym Hreply. unfold Dashboard.analyzeToken.
  destruct (trim (Dashboard.tokenSymbol captured)) eqn:E.
  - apply trim_blank in E. congruence.
  - simpl. unfold Dashboard.settle, Dashboard.saveRecentSearch.
    rewrite Hreply. destruct (Dashboard.setItem_throws env); repeat split.
Qed.

End DashboardProperties.

(** ** Risk bands *)

Lemma Qle_bool_false (x y : Q) : Qle_bool x y = false -> (y < x)%Q.
Proof.
  intros H. apply Qnot_le_lt. intros Hle.
  apply Qle_bool_iff in Hle. congruence.
Qed.

(** A score in the range [0, 100] is a finite number. *)
Lemma score_in_range_finite (x : number) :
  ge_const x 0 = true -> le_const x 100 = true ->
  exists s : Q, x = Num s /\ (0 <= s <= 100)%Q.
Proof.
  destruct x as [|q|[|]]; simpl; try discriminate.
  intros H0 H100. exists q. split; [reflexivity|].
  split; apply Qle_bool_iff; assumption.
Qed.

(** C2.  Under the documented thresholds every score of [0, 100] lies in
    the band [risk_level] gives it and in no other band: at least 75 is
    low, from 55 up to 75 medium, from 35 up to 55 high, below 35
    critical.  The dashboard's [getScoreColor] cuts the score at the same
    three boundaries. *)
Theorem risk_level_partitions_score
    (window : Z) (fraction : Q) (cap : Engine.Source -> nat) (s : Q) :
  (0 <= s <= 100)%Q ->
  let level := Engine.risk_level_of (Engine.documented window fraction cap) s in
  Engine.in_band level s
  /\ (forall other, Engine.in_band other s -> other = level)
  /\ Dashboard.getScoreColor (Num s)
     = match level with
       | Engine.low => lit "#10b981"
       | Engine.medium => lit "#f59e0b"
       | Engine.high => lit "#f97316"
       | Engine.critical => lit "#ef4444"
       end.
Proof.
  intros _. unfold Engine.risk_level_of, Dashboard.getScoreColor. simpl.
  destruct (Qle_bool 75 s) eqn:E75;
    [|destruct (Qle_bool 55 s) eqn:E55; [|destruct (Qle_bool 35 s) eqn:E35]];
    repeat match goal with
    | H : Qle_bool _ _ = true |- _ => apply Qle_bool_iff in H
    | H : Qle_bool _ _ = false |- _ => apply Qle_bool_false in H
    end;
    (split; [simpl; auto | split; [|reflexivity]]);
    intros [| | |]; simpl; intros Hb; try reflexivity; exfalso;
    repeat match goal with H : _ /\ _ |- _ => destruct H end;
    repeat match goal with
    | H : (_ <= _)%Q |- _ => unfold Qle in H; simpl in H
    | H : (_ < _)%Q |- _ => unfold Qlt in H; simpl in H
    end; lia.
Qed.

(** ** The engine *)

Section EngineProperties.

Variable matches : Engine.Category -> string -> bool.
Variable near_duplicate : string -> string -> bool.
Variable reports_coordination : Engine.CoordinationVerdict -> bool.
Variable reports_credibility : list Engine.Post -> bool.
Variable flag_text : Engine.Flag -> string.
Variable severity : Engine.Flag -> nat.
Variable cfg : Engine.Config.

Local Abbreviation detect := (Engine.detect near_duplicate cfg).
Local Abbreviation triggered :=
  (Engine.triggered matches reports_coordination reports_credibility).
Local Abbreviation red_flags :=
  (Engine.red_flags matches reports_coordination reports_credibility
     flag_text severity).

(** *** Red flags *)

Local Abbreviation dedupe := (Engine.dedupe flag_text).
Local Abbreviation place := (Engine.place severity).
Local Abbreviation prioritize := (Engine.prioritize severity).
Local Abbreviation red_flag_items :=
  (Engine.red_flag_items matches reports_coordination reports_credibility
     flag_text severity).
Local Abbreviation by_severity := (Engine.by_severity severity).

Lemma dedupe_incl (flags : list Engine.Flag) : incl (dedupe flags) flags.
Proof.
  induction flags as [|f rest IH]; simpl; [apply incl_refl|].
  destruct (existsb _ rest).
  - apply incl_tl, IH.
  - apply incl_cons; [left; reflexivity | apply incl_tl, IH].
Qed.

Lemma dedupe_keeps_text (flags : list Engine.Flag) (f : Engine.Flag) :
  In f flags -> In (flag_text f) (map flag_text (dedupe flags)).
Proof.
  revert f. induction flags as [|g rest IH]; intros f; simpl; [tauto|].
  destruct (existsb _ rest) eqn:E.
  - intros [->|Hin]; [|exact (IH f Hin)].
    apply existsb_exists in E. destruct E as [h [Hh Heq]].
    apply String.eqb_eq in Heq. rewrite <- Heq. apply IH, Hh.
  - intros [->|Hin]; [left; reflexivity | right; exact (IH f Hin)].
Qed.

Lemma dedupe_NoDup (flags : list Engine.Flag) :
  NoDup (map flag_text (dedupe flags)).
Proof.
  induction flags as [|f rest IH]; simpl; [constructor|].
  destruct (existsb _ rest) eqn:E; [exact IH|].
  simpl. constructor; [|exact IH].
  intros Hin. apply in_map_iff in Hin. destruct Hin as [g [Heq Hg]].
  apply dedupe_incl in Hg.
  assert (existsb (fun g => String.eqb (flag_text g) (flag_text f)) rest
          = true) as Habs; [|congruence].
  apply existsb_exists. exists g. split; [exact Hg|].
  apply String.eqb_eq, Heq.
Qed.

Lemma place_perm (f : Engine.Flag) (sorted : list Engine.Flag) :
  Permutation (place f sorted) (f :: sorted).
Proof.
  induction sorted as [|g rest IH]; simpl; [reflexivity|].
  destruct (severity f <? severity g); [|reflexivity].
  rewrite IH. apply perm_swap.
Qed.

Lemma prioritize_perm (flags : list Engine.Flag) :
  Permutation (prioritize flags) flags.
Proof.
  induction flags as [|f rest IH]; simpl; [reflexivity|].
  rewrite place_perm, IH. reflexivity.
Qed.

Lemma place_sorted (f : Engine.Flag) (sorted : list Engine.Flag) :
  StronglySorted by_severity sorted ->
  StronglySorted by_severity (place f sorted).
Proof.
  induction 1 as [|g rest Hs IH Hall]; simpl.
  - constructor; constructor.
  - destruct (severity f <? severity g) eqn:E.
    + apply Nat.ltb_lt in E. constructor; [exact IH|].
      eapply Permutation_Forall; [symmetry; apply place_perm|].
      constructor; [unfold Engine.by_severity; lia | exact Hall].
    + apply Nat.ltb_ge in E. constructor; [constructor; assumption|].
      constructor; [exact E|].
      eapply Forall_impl; [|exact Hall].
      unfold Engine.by_severity; intros; lia.
Qed.

Lemma prioritize_sorted (flags : list Engine.Flag) :
  StronglySorted by_severity (prioritize flags).
Proof.
  induction flags as [|f rest IH]; simpl; [constructor|].
  apply place_sorted, IH.
Qed.

(** Flags of one severity keep their order. *)
Lemma place_stable (n : nat) (f : Engine.Flag) (sorted : list Engine.Flag) :
  filter (fun g => severity g =? n) (place f sorted)
  = filter (fun g => severity g =? n) (f :: sorted).
Proof.
  induction sorted as [|g rest IH]; [reflexivity|].
  cbn [Engine.place].
  destruct (severity f <? severity g) eqn:E; [|reflexivity].
  apply Nat.ltb_lt in E.
  cbn [filter] in *. rewrite IH.
  destruct (severity f =? n) eqn:F, (severity g =? n) eqn:G;
    try reflexivity.
  apply Nat.eqb_eq in F, G. lia.
Qed.

Lemma prioritize_stable (n : nat) (flags : list Engine.Flag) :
  filter (fun g => severity g =? n) (prioritize flags)
  = filter (fun g => severity g =? n) flags.
Proof.
  induction flags as [|f rest IH]; [reflexivity|].
  cbn [Engine.prioritize]. rewrite place_stable.
  cbn [filter]. rewrite IH. reflexivity.
Qed.

(** What triggers a flag. *)
Lemma triggered_iff (posts : list Engine.Post)
    (v : Engine.CoordinationVerdict) (f : Engine.Flag) :
  In f (triggered posts v)
  <-> (exists p c, In p posts /\ matches c (Engine.text p) = true
                   /\ f = Engine.pattern c)
      \/ (reports_coordination v = true /\ f = Engine.coordination_finding)
      \/ (reports_credibility posts = true /\ f = Engine.credibility_finding).
Proof.
  unfold Engine.triggered. rewrite !in_app_iff, in_flat_map. split.
  - intros [[p [Hp Hin]]|[Hin|Hin]].
    + left. apply in_map_iff in Hin. destruct Hin as [c [<- Hc]].
      apply filter_In in Hc. exists p, c. tauto.
    + right; left. destruct (reports_coordination v); simpl in Hin;
        intuition congruence.
    + right; right. destruct (reports_credibility posts); simpl in Hin;
        intuition congruence.
  - intros [[p [c [Hp [Hm ->]]]]|[[-> ->]|[-> ->]]].
    + left. exists p. split; [exact Hp|].
      apply in_map, filter_In. split; [|exact Hm].
      destruct c; simpl; tauto.
    + right; left. left; reflexivity.
    + right; right. left; reflexivity.
Qed.


(** *** Coordination *)

Local Abbreviation linked := (Engine.linked near_duplicate).
Local Abbreviation touches := (Engine.touches near_duplicate).
Local Abbreviation union := (Engine.union near_duplicate).
Local Abbreviation clusters := (Engine.clusters near_duplicate).

(** Two clusterings are the same when they hold the same clusters, in any
    order, each with the same posts, in any order. *)
Local Abbreviation same_clustering :=
  (PermutationA (@Permutation Engine.Post)).

Lemma existsb_perm {A} (f : A -> bool) (l l' : list A) :
  Permutation l l' -> existsb f l = existsb f l'.
Proof.
  induction 1 as [|x l l' _ IH|x y l|l l' l'' _ IH1 _ IH2]; simpl.
  - reflexivity.
  - rewrite IH. reflexivity.
  - destruct (f x), (f y); reflexivity.
  - congruence.
Qed.

Lemma filter_perm {A} (f : A -> bool) (l l' : list A) :
  Permutation l l' -> Permutation (filter f l) (filter f l').
Proof.
  induction 1 as [|x l l' _ IH|x y l|l l' l'' _ IH1 _ IH2]; simpl.
  - constructor.
  - destruct (f x); [constructor|]; exact IH.
  - destruct (f x), (f y); try reflexivity. apply perm_swap.
  - etransitivity; eassumption.
Qed.

Lemma filter_filter_comm {A} (f g : A -> bool) (l : list A) :
  filter f (filter g l) = filter g (filter f l).
Proof.
  induction l as [|x l IH]; simpl; [reflexivity|].
  destruct (g x) eqn:G, (f x) eqn:F; simpl; rewrite ?G, ?F, IH; reflexivity.
Qed.

Lemma existsb_concat_filter {A} (f : A -> bool) (g : list A -> bool)
    (cs : list (list A)) :
  existsb f (concat (filter g cs))
  = existsb (fun c => g c && existsb f c) cs.
Proof.
  induction cs as [|c cs IH]; simpl; [reflexivity|].
  destruct (g c); simpl; [rewrite existsb_app|]; rewrite IH; reflexivity.
Qed.

(** Merging what [f] selects and then what [g] selects among the rest
    gathers the members of every cluster that either selects. *)
Lemma concat_filter_either {A} (f g : list A -> bool) (cs : list (list A)) :
  Permutation
    (concat (filter f cs) ++ concat (filter g (filter (fun c => negb (f c)) cs)))
    (concat (filter (fun c => f c || g c) cs)).
Proof.
  induction cs as [|c cs IH]; simpl; [reflexivity|].
  destruct (f c) eqn:F; simpl.
  - rewrite <- app_assoc. apply Permutation_app_head, IH.
  - destruct (g c) eqn:G; simpl; [|exact IH].
    rewrite Permutation_app_swap_app. apply Permutation_app_head, IH.
Qed.

Lemma filter_disjoint {A} (f g : A -> bool) (l : list A) :
  existsb (fun x => g x && f x) l = false ->
  filter f (filter (fun x => negb (g x)) l) = filter f l.
Proof.
  induction l as [|x l IH]; simpl; [reflexivity|].
  intros H. apply orb_false_iff in H. destruct H as [Hx Hl].
  destruct (g x) eqn:G, (f x) eqn:F; simpl in *; rewrite ?F, (IH Hl);
    try reflexivity; discriminate.
Qed.

Lemma touches_perm (p : Engine.Post) (c c' : list Engine.Post) :
  Permutation c c' -> touches p c = touches p c'.
Proof. apply existsb_perm. Qed.

Lemma filter_same_clustering (f : list Engine.Post -> bool)
    (cs cs' : list (list Engine.Post)) :
  (forall c c', Permutation c c' -> f c = f c') ->
  same_clustering cs cs' -> same_clustering (filter f cs) (filter f cs').
Proof.
  intros Hf.
  induction 1 as [|c c' cs cs' Hc _ IH|c d cs|cs cs' cs'' _ IH1 _ IH2]; simpl.
  - constructor.
  - rewrite <- (Hf c c' Hc). destruct (f c); [constructor|]; assumption.
  - destruct (f c), (f d); try reflexivity. apply permA_swap.
  - etransitivity; eassumption.
Qed.

Lemma concat_same_clustering (cs cs' : list (list Engine.Post)) :
  same_clustering cs cs' -> Permutation (concat cs) (concat cs').
Proof.
  induction 1 as [|c c' cs cs' Hc _ IH|c d cs|cs cs' cs'' _ IH1 _ IH2]; simpl.
  - constructor.
  - apply Permutation_app; assumption.
  - apply Permutation_app_swap_app.
  - etransitivity; eassumption.
Qed.

Lemma sizes_same_clustering (cs cs' : list (list Engine.Post)) :
  same_clustering cs cs' ->
  Permutation (map (@length Engine.Post) cs) (map (@length Engine.Post) cs').
Proof.
  induction 1 as [|c c' cs cs' Hc _ IH|c d cs|cs cs' cs'' _ IH1 _ IH2]; simpl.
  - constructor.
  - rewrite (Permutation_length Hc). constructor; exact IH.
  - apply perm_swap.
  - etransitivity; eassumption.
Qed.

Lemma maximum_perm (l l' : list nat) :
  Permutation l l' -> Engine.maximum l = Engine.maximum l'.
Proof.
  induction 1 as [|x l l' _ IH|x y l|l l' l'' _ IH1 _ IH2]; simpl; lia.
Qed.

Lemma union_same_clustering (p : Engine.Post)
    (cs cs' : list (list Engine.Post)) :
  same_clustering cs cs' -> same_clustering (union p cs) (union p cs').
Proof.
  intros H. unfold Engine.union. constructor.
  - constructor. apply concat_same_clustering, filter_same_clustering;
      [apply touches_perm | exact H].
  - apply filter_same_clustering; [|exact H].
    intros c c' Hc. rewrite (touches_perm p c c' Hc). reflexivity.
Qed.
Lemma concat_filter_split {A} (f : list A -> bool) (cs : list (list A)) :
  Permutation
    (concat (filter f cs) ++ concat (filter (fun c => negb (f c)) cs))
    (concat cs).
Proof.
  induction cs as [|c cs IH]; simpl; [reflexivity|].
  destruct (f c); simpl.
  - rewrite <- app_assoc. apply Permutation_app_head, IH.
  - rewrite Permutation_app_swap_app. apply Permutation_app_head, IH.
Qed.

(** The clusters hold every post once: they partition the posts. *)
Lemma clusters_partition (posts : list Engine.Post) :
  Permutation (concat (clusters posts)) posts.
Proof.
  unfold Engine.clusters. rewrite <- fold_left_rev_right.
  rewrite (Permutation_rev posts) at 2.
  induction (rev posts) as [|p l IH]; simpl; [reflexivity|].
  rewrite concat_filter_split. constructor. exact IH.
Qed.

Lemma existsb_pointwise {A} (f g : A -> bool) (l : list A) :
  (forall x, f x = g x) -> existsb f l = existsb g l.
Proof.
  intros H. induction l as [|x l IH]; simpl; [|rewrite H, IH]; reflexivity.
Qed.

Lemma union_union (p q : Engine.Post) (cs : list (list Engine.Post)) :
  union p (union q cs)
  = if touches p (q :: concat (filter (touches q) cs))
    then (p :: (q :: concat (filter (touches q) cs))
            ++ concat (filter (touches p)
                         (filter (fun c => negb (touches q c)) cs)))
         :: filter (fun c => negb (touches p c))
              (filter (fun c => negb (touches q c)) cs)
    else (p :: concat (filter (touches p)
                         (filter (fun c => negb (touches q c)) cs)))
         :: (q :: concat (filter (touches q) cs))
         :: filter (fun c => negb (touches p c))
              (filter (fun c => negb (touches q c)) cs).
Proof.
  unfold Engine.union.
  cbn [filter concat].
  destruct (Engine.touches near_duplicate p
              (q :: concat (filter (touches q) cs)));
    reflexivity.
Qed.

Section SymmetricSimilarity.

(** Near-duplication is a property of a pair of texts. *)
Hypothesis near_duplicate_sym :
  forall a b, near_duplicate a b = near_duplicate b a.

Lemma linked_sym (p q : Engine.Post) : linked p q = linked q p.
Proof.
  unfold Engine.linked.
  rewrite String.eqb_sym, near_duplicate_sym. reflexivity.
Qed.

Lemma touches_merged (p q : Engine.Post) (cs : list (list Engine.Post)) :
  touches p (q :: concat (filter (touches q) cs))
  = linked p q || existsb (fun c => touches q c && touches p c) cs.
Proof.
  unfold Engine.touches at 1. cbn [existsb].
  rewrite existsb_concat_filter. reflexivity.
Qed.

(** Adding two posts in either order gives the same clustering. *)
Lemma union_comm (p q : Engine.Post) (cs : list (list Engine.Post)) :
  same_clustering (union p (union q cs)) (union q (union p cs)).
Proof.
  rewrite !union_union, !touches_merged.
  rewrite (linked_sym q p).
  rewrite (existsb_pointwise (fun c => touches p c && touches q c)
             (fun c => touches q c && touches p c) cs)
    by (intros; apply andb_comm).
  rewrite (filter_filter_comm (fun c => negb (touches q c))
             (fun c => negb (touches p c)) cs).
  destruct (linked p q || existsb (fun c => touches q c && touches p c) cs)
    eqn:E.
  - constructor; [|reflexivity].
    cbn [app]. etransitivity; [apply perm_swap|]. do 2 constructor.
    rewrite !concat_filter_either.
    rewrite (filter_ext (fun c => touches q c || touches p c)
               (fun c => touches p c || touches q c))
      by (intros; apply orb_comm).
    reflexivity.
  - apply orb_false_iff in E. destruct E as [_ E].
    rewrite (filter_disjoint (touches p) (touches q) cs E).
    rewrite (filter_disjoint (touches q) (touches p) cs).
    + apply permA_swap.
    + rewrite <- E. apply existsb_pointwise. intros; apply andb_comm.
Qed.

Lemma fold_union_perm (posts posts' : list Engine.Post) :
  Permutation posts posts' ->
  same_clustering (fold_right union [] posts) (fold_right union [] posts').
Proof.
  induction 1 as [|p l l' _ IH|p q l|l l' l'' _ IH1 _ IH2]; simpl.
  - constructor.
  - apply union_same_clustering, IH.
  - apply union_comm.
  - etransitivity; eassumption.
Qed.

Lemma clusters_perm (posts posts' : list Engine.Post) :
  Permutation posts posts' ->
  same_clustering (clusters posts) (clusters posts').
Proof.
  intros H. unfold Engine.clusters.
  rewrite <- !fold_left_rev_right.
  apply fold_union_perm.
  rewrite <- !Permutation_rev. exact H.
Qed.

End SymmetricSimilarity.

Lemma nodup_length_perm (l l' : list string) :
  Permutation l l' ->
  length (nodup string_dec l) = length (nodup string_dec l').
Proof.
  intros H. apply Permutation_length, NoDup_Permutation;
    try apply NoDup_nodup.
  intros x. rewrite !nodup_In.
  split; apply Permutation_in; [|symmetry]; exact H.
Qed.

Lemma temporal_burst_perm (posts posts' : list Engine.Post) :
  Permutation posts posts' ->
  Engine.temporal_burst cfg posts = Engine.temporal_burst cfg posts'.
Proof.
  intros H. unfold Engine.temporal_burst, Engine.authors_in_window.
  rewrite (existsb_perm _ posts posts' H).
  apply existsb_pointwise. intros p.
  rewrite (Permutation_length H).
  rewrite (nodup_length_perm _ _
             (Permutation_map Engine.author_id
                (filter_perm (Engine.in_window cfg (Engine.created_at p))
                   posts posts' H))).
  reflexivity.
Qed.

(** C4.  Near-duplication being symmetric in the two texts, [detect]
    gives any two orderings of the same posts the same verdict: the same
    [cluster_count], the same [max_cluster_size] and the same
    [coordinated]. *)
Theorem detect_order_independent (posts posts' : list Engine.Post) :
  (forall a b, near_duplicate a b = near_duplicate b a) ->
  Permutation posts posts' ->
  Engine.cluster_count (detect posts) = Engine.cluster_count (detect posts')
  /\ Engine.coordinated (detect posts) = Engine.coordinated (detect posts')
  /\ Engine.max_cluster_size (detect posts)
     = Engine.max_cluster_size (detect posts')
  /\ detect posts = detect posts'.
Proof.
  intros Hsym H.
  pose proof (sizes_same_clustering _ _ (clusters_perm Hsym posts posts' H))
    as Hsizes.
  assert (Hcount : length (clusters posts) = length (clusters posts')).
  { rewrite <- (length_map (@length Engine.Post) (clusters posts)),
            <- (length_map (@length Engine.Post) (clusters posts')).
    apply Permutation_length, Hsizes. }
  pose proof (maximum_perm _ _ Hsizes) as Hmax.
  pose proof (temporal_burst_perm posts posts' H) as Hburst.
  unfold Engine.detect. cbn [Engine.cluster_count Engine.coordinated
                            Engine.max_cluster_size].
  rewrite Hcount, Hmax, Hburst. repeat split.
Qed.

End EngineProperties.


(** * Examples *)

Example trim_strips_both_ends : trim (lit "  a b  ") = lit "a b".
Proof. reflexivity. Qed.

Example trim_of_blanks : trim [0x20; 0x09; 0xA0; 0x3000]%N = [].
Proof. reflexivity. Qed.

Example ToString_of_array :
  ToString Samples.number_toString_special
    (JArray [JString (lit "a"); JNull; JArray [JBool true; JObject []]])
  = Some (lit "a,,true,[object Object]").
Proof. reflexivity. Qed.

Example ToString_of_object_with_toString_key :
  ToString Samples.number_toString_special
    (JObject [(lit "toString", JString (lit "x"))])
  = None
  /\ ToString Samples.number_toString_special
       (JArray [JString (lit "a");
                JObject [(lit "toString", JNull)]])
     = None
  /\ ToString Samples.number_toString_special
       (JObject [(lit "valueOf", JString (lit "x"))])
     = Some (lit "[object Object]").
Proof. repeat split. Qed.

Example getScoreColor_boundaries :
  Dashboard.getScoreColor (Num 100) = lit "#10b981"
  /\ Dashboard.getScoreColor (Num 75) = lit "#10b981"
  /\ Dashboard.getScoreColor (Num (749 # 10)) = lit "#f59e0b"
  /\ Dashboard.getScoreColor (Num 55) = lit "#f59e0b"
  /\ Dashboard.getScoreColor (Num (549 # 10)) = lit "#f97316"
  /\ Dashboard.getScoreColor (Num 35) = lit "#f97316"
  /\ Dashboard.getScoreColor (Num (349 # 10)) = lit "#ef4444"
  /\ Dashboard.getScoreColor (Num 0) = lit "#ef4444"
  /\ Dashboard.getScoreColor NaN = lit "#ef4444".
Proof. repeat split. Qed.

Example updated_moves_to_front :
  Dashboard.updated [lit "ETH"; lit "BTC"; lit "SOL"] (lit "BTC")
  = [lit "BTC"; lit "ETH"; lit "SOL"].
Proof. reflexivity. Qed.

Example updated_drops_the_oldest :
  Dashboard.updated [lit "A"; lit "B"; lit "C"; lit "D"; lit "E"] (lit "F")
  = [lit "F"; lit "A"; lit "B"; lit "C"; lit "D"].
Proof. reflexivity. Qed.

Example analyzeToken_saves_search :
  let final :=
    Dashboard.finish (Samples.analyzeToken Samples.typed_btc)
      (Dashboard.mkEnvironment
         (Dashboard.Responds true (Dashboard.BodyParses (JObject []))) false)
      Samples.typed_btc in
  Dashboard.result final = JObject []
  /\ Dashboard.recentSearches final = [lit "BTC"; lit "ETH"]
  /\ Dashboard.truthfi_recent_searches final = Some [lit "BTC"; lit "ETH"]
  /\ Dashboard.loading final = false.
Proof. repeat split. Qed.

Example analyzeToken_network_failure :
  Dashboard.error
    (Dashboard.finish (Samples.analyzeToken Samples.typed_btc)
       (Dashboard.mkEnvironment (Dashboard.Rejects []) false)
       Samples.typed_btc)
  = lit "Failed to analyze token. Make sure the backend is running.".
Proof. reflexivity. Qed.

Example clusters_merge_through_a_common_post :
  Engine.cluster_count
    (Samples.detect [Samples.post_a; Samples.post_b]) = 2
  /\ Engine.cluster_count
       (Samples.detect [Samples.post_a; Samples.post_b; Samples.post_c]) = 1
  /\ Engine.cluster_count
       (Samples.detect [Samples.post_c; Samples.post_a; Samples.post_b]) = 1.
Proof. repeat split. Qed.

Example red_flags_of_sample :
  Samples.red_flags [Samples.post_a; Samples.post_b; Samples.post_b]
    (Samples.detect [Samples.post_a; Samples.post_b; Samples.post_b])
  = ["Coordinated campaign"%string; "Artificial urgency"%string].
Proof. reflexivity. Qed.

Example prioritize_keeps_ties_in_order :
  Engine.prioritize (fun _ => 1)
    [Engine.pattern Engine.suspicious_link; Engine.coordination_finding;
     Engine.pattern Engine.urgency_language]
  = [Engine.pattern Engine.suspicious_link; Engine.coordination_finding;
     Engine.pattern Engine.urgency_language].
Proof. reflexivity. Qed.

Lemma samples_near_duplicate_sym (a b : string) :
  Samples.near_duplicate a b = Samples.near_duplicate b a.
Proof. unfold Samples.near_duplicate. apply andb_comm. Qed.

Lemma risk_level_partitions_score_witness :
  (0 <= 75 <= 100)%Q
  /\ Engine.in_band Engine.low 75
  /\ (forall other, Engine.in_band other 75 -> other = Engine.low)
  /\ Dashboard.getScoreColor (Num 75) = lit "#10b981".
Proof.
  assert (H : (0 <= 75 <= 100)%Q) by (split; unfold Qle; simpl; lia).
  split; [exact H|].
  exact (risk_level_partitions_score 300 (1 # 2) (fun _ => 100) 75 H).
Defined.

Lemma detect_order_independent_witness :
  let posts := [Samples.post_a; Samples.post_b; Samples.post_c] in
  let posts' := [Samples.post_c; Samples.post_a; Samples.post_b] in
  Permutation posts posts'
  /\ Engine.cluster_count (Samples.detect posts)
     = Engine.cluster_count (Samples.detect posts')
  /\ Engine.coordinated (Samples.detect posts)
     = Engine.coordinated (Samples.detect posts')
  /\ Engine.max_cluster_size (Samples.detect posts)
     = Engine.max_cluster_size (Samples.detect posts')
  /\ Samples.detect posts = Samples.detect posts'.
Proof.
  intros posts posts'.
  assert (H : Permutation posts posts').
  { symmetry. exact (Permutation_cons_append
                       [Samples.post_a; Samples.post_b] Samples.post_c). }
  split; [exact H|].
  exact (detect_order_independent Samples.near_duplicate Samples.cfg
           posts posts' samples_near_duplicate_sym H).
Defined.



Lemma analyzeToken_error_detail_witness :
  let env := Samples.not_ok Samples.no_data in
  let final :=
    Dashboard.finish (Samples.analyzeToken Samples.typed_btc) env
      Samples.typed_btc in
  forallb is_white_space (Dashboard.tokenSymbol Samples.typed_btc) = false
  /\ Dashboard.result final = JNull
  /\ Dashboard.error final = lit "No data found for token BTC".
Proof.
  intros env final.
  assert (H : forallb is_white_space
                (Dashboard.tokenSymbol Samples.typed_btc) = false)
    by reflexivity.
  split; [exact H|].
  destruct (analyzeToken_error_detail Samples.toUpperCase_ascii
              Samples.number_toString_special Samples.null_read_message Samples.not_primitive_message []
              Samples.typed_btc Samples.typed_btc env Samples.no_data
              H eq_refl)
    as [Hres [Hdetail _]].
  split; [exact Hres|].
  apply Hdetail; [reflexivity | discriminate].
Defined.

(** C8 as stated fails: a non-2xx body whose [detail] is the empty string
    carries a detail string, yet the page shows 'Analysis failed', not that
    string. *)
Lemma analyzeToken_empty_detail_counterexample :
  let final :=
    Dashboard.finish (Samples.analyzeToken Samples.typed_btc)
      (Samples.not_ok Samples.empty_detail) Samples.typed_btc in
  get Samples.empty_detail (lit "detail") = Value (Some (JString []))
  /\ Dashboard.error final = lit "Analysis failed"
  /\ Dashboard.error final <> [].
Proof.
  intros final. split; [reflexivity|]. split; [reflexivity|].
  vm_compute. discriminate.
Qed.

Lemma saveRecentSearch_recent_list_witness :
  NoDup (Dashboard.recentSearches Samples.typed_btc)
  /\ Dashboard.recentSearches
       (Dashboard.saveRecentSearch Samples.typed_btc false (lit "BTC")
          Samples.typed_btc)
     = [lit "BTC"; lit "ETH"]
  /\ NoDup
       (Dashboard.recentSearches
          (Dashboard.saveRecentSearch Samples.typed_btc false (lit "BTC")
             Samples.typed_btc))
  /\ length
       (Dashboard.recentSearches
          (Dashboard.saveRecentSearch Samples.typed_btc false (lit "BTC")
             Samples.typed_btc))
     <= 2.
Proof.
  assert (H : NoDup (Dashboard.recentSearches Samples.typed_btc)).
  { constructor; [|constructor; [intros []|constructor]].
    intros [E|[]]. vm_compute in E. discriminate E. }
  split; [exact H|].
  destruct (saveRecentSearch_recent_list Samples.typed_btc Samples.typed_btc
              false (lit "BTC"))
    as [Heq [_ [_ [Hnd [_ Hgrow]]]]].
  split; [exact Heq|]. split; [exact (Hnd H)|].
  apply Hgrow. right; left; reflexivity.
Defined.

(** C9 as stated fails: the mount effect takes the stored list as it is,
    and [saveRecentSearch] removes only the copies of the token it saves;
    duplicates among the other entries stay. *)
Lemma saveRecentSearch_duplicates_counterexample :
  Dashboard.recentSearches (Dashboard.loadRecentSearches Samples.stored_twice)
  = [lit "X"; lit "X"; lit "Y"]
  /\ Dashboard.recentSearches
       (Dashboard.saveRecentSearch
          (Dashboard.loadRecentSearches Samples.stored_twice) false (lit "Z")
          (Dashboard.loadRecentSearches Samples.stored_twice))
     = [lit "Z"; lit "X"; lit "X"; lit "Y"]
  /\ ~ NoDup
        (Dashboard.recentSearches
           (Dashboard.saveRecentSearch
              (Dashboard.loadRecentSearches Samples.stored_twice) false
              (lit "Z")
              (Dashboard.loadRecentSearches Samples.stored_twice))).
Proof.
  split; [reflexivity|]. split; [reflexivity|].
  intros H. vm_compute in H.
  inversion H as [|x l _ H1]. subst.
  inversion H1 as [|x l Hnotin _]. subst.
  apply Hnotin. left; reflexivity.
Qed.

Lemma analyzeToken_request_body_witness :
  In Samples.analyze_btc
    (Dashboard.requests (Samples.analyzeToken Samples.typed_btc))
  /\ get (Dashboard.body Samples.analyze_btc) (lit "token_symbol")
     = Value (Some (JString (lit "BTC")))
  /\ get (Dashboard.body Samples.analyze_btc) (lit "post_limit")
     = Value (Some (JNumber (Num 50))).
Proof.
  assert (H : In Samples.analyze_btc
                (Dashboard.requests (Samples.analyzeToken Samples.typed_btc)))
    by (left; reflexivity).
  split; [exact H|].
  destruct (analyzeToken_request_body Samples.toUpperCase_ascii
              Samples.number_toString_special Samples.null_read_message Samples.not_primitive_message []
              Samples.typed_btc Samples.analyze_btc H)
    as [_ [Htyped Hlimit]].
  split; [|exact Hlimit].
  exact (Htyped (lit "btc")
           (Dashboard.setRecentSearches [lit "ETH"; lit "BTC"]
              Dashboard.initial) eq_refl).
Defined.

(** * Further properties of the dashboard *)

Lemma forallb_false_exists {A} (f : A -> bool) (l : list A) :
  forallb f l = false <-> exists x, In x l /\ f x = false.
Proof.
  induction l as [|a l IH]; simpl.
  - split; [discriminate | intros [x [[] _]]].
  - rewrite andb_false_iff, IH. split.
    + intros [Ha|[x [Hx Hf]]]; [exists a | exists x]; auto.
    + intros [x [[->|Hx] Hf]]; [left | right; exists x]; auto.
Qed.

Lemma or_else_nonempty (a b : js_string) : b <> [] -> or_else a b <> [].
Proof.
  unfold or_else. destruct a; simpl; [tauto | discriminate].
Qed.

Lemma filter_all {A} (f : A -> bool) (l : list A) :
  (forall x, In x l -> f x = true) -> filter f l = l.
Proof.
  induction l as [|a l IH]; simpl; intros H; [reflexivity|].
  rewrite (H a (or_introl eq_refl)), IH; auto.
Qed.

Lemma firstn_firstn_same {A} (n : nat) (l : list A) :
  firstn n (firstn n l) = firstn n l.
Proof. rewrite firstn_firstn, Nat.min_id. reflexivity. Qed.

(** ** Recent searches, continued *)

(** X11.  Saving the token that was just saved changes nothing. *)
Theorem updated_idempotent (l : list js_string) (token : js_string) :
  Dashboard.updated (Dashboard.updated l token) token
  = Dashboard.updated l token.
Proof.
  rewrite (updated_eq l token).
  set (others := firstn 4 (filter (fun t => strict_neq t token) l)).
  rewrite updated_eq. cbn [filter].
  assert (strict_neq token token = false) as ->.
  { apply not_true_iff_false. rewrite strict_neq_true. tauto. }
  rewrite filter_all.
  - unfold others. rewrite firstn_firstn_same. reflexivity.
  - intros x Hx. apply In_firstn, filter_In in Hx. tauto.
Qed.

Lemma updated_sound (l : list js_string) (token x : js_string) :
  In x (Dashboard.updated l token) -> x = token \/ In x l.
Proof.
  rewrite updated_eq.
  intros [<-|Hin]; [left; reflexivity|].
  right. apply In_firstn, filter_In in Hin. tauto.
Qed.

(** X12.  No entry is invented, and while there is room none is lost: the new
    list holds only the token and earlier entries, and it holds every
    earlier entry when these were at most four. *)
Theorem updated_entries (l : list js_string) (token x : js_string) :
  (In x (Dashboard.updated l token) -> x = token \/ In x l)
  /\ (length l <= 4 -> In x l -> In x (Dashboard.updated l token)).
Proof.
  split; [apply updated_sound|]. rewrite updated_eq.
  intros Hlen Hin.
  destruct (strict_neq x token) eqn:E.
  - right. rewrite firstn_all2.
    + apply filter_In. tauto.
    + pose proof (filter_length_le (fun t => strict_neq t token) l). lia.
  - left. apply not_true_iff_false in E. rewrite strict_neq_true in E.
    destruct (list_eq_dec N.eq_dec x token); [congruence | tauto].
Qed.

Lemma filter_out_listed (l : list js_string) (token : js_string) :
  NoDup l -> In token l ->
  Permutation (token :: filter (fun t => strict_neq t token) l) l.
Proof.
  induction 1 as [|a l Ha Hl IH]; simpl; [tauto|].
  intros [->|Hin].
  - assert (strict_neq token token = false) as ->.
    { apply not_true_iff_false. rewrite strict_neq_true. tauto. }
    rewrite filter_all; [reflexivity|].
    intros x Hx. apply strict_neq_true. congruence.
  - assert (strict_neq a token = true) as ->.
    { apply strict_neq_true. congruence. }
    rewrite perm_swap. constructor. exact (IH Hin).
Qed.

(** X13.  Saving a token that is already listed, in a list without duplicates
    that is not over the limit of five, only rearranges the list. *)
Theorem updated_rearranges (l : list js_string) (token : js_string) :
  NoDup l -> In token l -> length l <= 5 ->
  Permutation (Dashboard.updated l token) l.
Proof.
  intros Hnd Hin Hlen.
  pose proof (filter_out_listed l token Hnd Hin) as Hperm.
  unfold Dashboard.updated. rewrite firstn_all2; [exact Hperm|].
  rewrite (Permutation_length Hperm). exact Hlen.
Qed.

(** X14.  What is saved is what the next mount reads back, unless [setItem]
    threw: then the page shows the new list while the store keeps what it
    held. *)
Theorem saveRecentSearch_persists
    (captured cur next : Dashboard.State) (token : js_string) :
  let saved := Dashboard.saveRecentSearch captured false token cur in
  let unsaved := Dashboard.saveRecentSearch captured true token cur in
  Dashboard.truthfi_recent_searches saved
  = Some (Dashboard.recentSearches saved)
  /\ (Dashboard.truthfi_recent_searches next
      = Dashboard.truthfi_recent_searches saved ->
      Dashboard.recentSearches (Dashboard.loadRecentSearches next)
      = Dashboard.recentSearches saved)
  /\ Dashboard.recentSearches unsaved = Dashboard.recentSearches saved
  /\ Dashboard.truthfi_recent_searches unsaved
     = Dashboard.truthfi_recent_searches cur.
Proof.
  intros saved unsaved. split; [reflexivity|]. split; [|split; reflexivity].
  intros H. unfold Dashboard.loadRecentSearches. rewrite H. reflexivity.
Qed.

(** ** Colours and icons *)

Lemma str_eqb_false (s t : js_string) : s <> t -> str_eqb s t = false.
Proof.
  intros H. apply not_true_iff_false. rewrite str_eqb_eq. exact H.
Qed.

(** X16.  The text colour and the background of a risk level are of one colour
    family, whatever the level; a level that is none of the four known
    ones gets gray and the alert circle. *)
Theorem risk_colours_agree (level : js_string) :
  (exists family,
     Dashboard.getRiskColor level = lit "text-" ++ family ++ lit "-600"
     /\ Dashboard.getRiskBgColor level
        = lit "bg-" ++ family ++ lit "-50 border-" ++ family ++ lit "-200")
  /\ (level <> lit "low" -> level <> lit "medium" ->
      level <> lit "high" -> level <> lit "critical" ->
      Dashboard.getRiskColor level = lit "text-gray-600"
      /\ Dashboard.getRiskBgColor level = lit "bg-gray-50 border-gray-200"
      /\ Dashboard.getRiskIcon level = Dashboard.AlertCircle).
Proof.
  unfold Dashboard.getRiskColor, Dashboard.getRiskBgColor,
    Dashboard.getRiskIcon.
  split.
  - destruct (str_eqb level (lit "low"));
      [exists (lit "green"); split; reflexivity|].
    destruct (str_eqb level (lit "medium"));
      [exists (lit "yellow"); split; reflexivity|].
    destruct (str_eqb level (lit "high"));
      [exists (lit "orange"); split; reflexivity|].
    destruct (str_eqb level (lit "critical"));
      [exists (lit "red") | exists (lit "gray")]; split; reflexivity.
  - intros H1 H2 H3 H4.
    rewrite (str_eqb_false _ _ H1), (str_eqb_false _ _ H2),
      (str_eqb_false _ _ H3), (str_eqb_false _ _ H4).
    repeat split.
Qed.

(** X17.  [getScoreColor] is monotone: a higher score never gets the colour of
    a lower band. *)
Theorem getScoreColor_monotone (s t : Q) :
  (s <= t)%Q ->
  (Dashboard.getScoreColor (Num s) = lit "#10b981" ->
   Dashboard.getScoreColor (Num t) = lit "#10b981")
  /\ (Dashboard.getScoreColor (Num s) <> lit "#ef4444" ->
      Dashboard.getScoreColor (Num t) <> lit "#ef4444")
  /\ (Dashboard.getScoreColor (Num s) <> lit "#ef4444" ->
      Dashboard.getScoreColor (Num s) <> lit "#f97316" ->
      Dashboard.getScoreColor (Num t) <> lit "#ef4444"
      /\ Dashboard.getScoreColor (Num t) <> lit "#f97316").
Proof.
  intros Hst. unfold Dashboard.getScoreColor. simpl.
  destruct (Qle_bool 75 s) eqn:S75, (Qle_bool 55 s) eqn:S55,
    (Qle_bool 35 s) eqn:S35, (Qle_bool 75 t) eqn:T75,
    (Qle_bool 55 t) eqn:T55, (Qle_bool 35 t) eqn:T35;
    repeat match goal with
    | H : Qle_bool _ _ = true |- _ => apply Qle_bool_iff in H
    | H : Qle_bool _ _ = false |- _ => apply Qle_bool_false in H
    end;
    try (exfalso;
         repeat match goal with
         | H : (_ <= _)%Q |- _ => unfold Qle in H; simpl in H
         | H : (_ < _)%Q |- _ => unfold Qlt in H; simpl in H
         end; nia);
    (split; [|split]); intros; try split;
    try reflexivity; try discriminate; try congruence;
    exfalso; auto.
Qed.

(** ** The sentiment label *)

(** X18.  Only the first underscore of the sentiment becomes a blank: what
    stands before it and everything after it, later underscores included,
    is shown as it is, and a sentiment without underscore is shown
    unchanged. *)
Theorem displaySentiment_first_underscore (before rest : js_string) :
  ~ In 0x5F%N before ->
  Dashboard.displaySentiment (before ++ 0x5F%N :: rest)
  = before ++ 0x20%N :: rest
  /\ Dashboard.displaySentiment before = before
  /\ length (Dashboard.displaySentiment (before ++ 0x5F%N :: rest))
     = length (before ++ 0x5F%N :: rest).
Proof.
  unfold Dashboard.displaySentiment.
  induction before as [|c before IH]; simpl; intros Hnot.
  - repeat split.
  - destruct (N.eqb_spec c 0x5F%N) as [->|Hc]; [tauto|].
    destruct IH as [IH1 [IH2 IH3]]; [tauto|].
    rewrite IH1, IH2. simpl. rewrite !length_app. repeat split.
Qed.

(** ** Trending *)

(** X15.  [loadTrending] shows at most ten tokens, the first ten of the
    response in their order, whatever the status of the response; when the
    request fails, the body does not parse or holds no [trending], it
    calls no setter: the page stays as it is and no error is set. *)
Theorem loadTrending_at_most_ten
    (ok : bool) (data : json) (tokens : list json) :
  get data (lit "trending") = Value (Some (JArray tokens)) ->
  Dashboard.loadTrending_settle
    (Dashboard.Responds ok (Dashboard.BodyParses data))
  = Dashboard.Shown (JArray (firstn 10 tokens))
  /\ length (firstn 10 tokens) <= 10
  /\ (length tokens <= 10 -> firstn 10 tokens = tokens)
  /\ (forall message,
        Dashboard.loadTrending_settle (Dashboard.Rejects message)
        = Dashboard.Untouched
        /\ Dashboard.loadTrending_settle
             (Dashboard.Responds ok (Dashboard.BodyRejects message))
           = Dashboard.Untouched)
  /\ (forall other,
        get other (lit "trending") = Value None \/ other = JNull ->
        Dashboard.loadTrending_settle
          (Dashboard.Responds ok (Dashboard.BodyParses other))
        = Dashboard.Untouched).
Proof.
  intros H. unfold Dashboard.loadTrending_settle, Dashboard.trending_slice.
  rewrite H. split; [reflexivity|]. split; [apply firstn_le_length|].
  split; [apply firstn_all2|]. split; [split; reflexivity|].
  intros other [-> | ->]; reflexivity.
Qed.

(** ** [analyzeToken], continued *)

Section AnalyzeTokenProperties.

Variable toUpperCase : js_string -> js_string.
Variable number_toString : number -> js_string.
Variable null_read_message : js_string.
Variable not_primitive_message : js_string.
Variable NEXT_PUBLIC_API_URL : js_string.

Local Abbreviation analyzeToken :=
  (Dashboard.analyzeToken toUpperCase number_toString null_read_message
     not_primitive_message NEXT_PUBLIC_API_URL).
Local Abbreviation onKeyPress :=
  (Dashboard.onKeyPress toUpperCase number_toString null_read_message
     not_primitive_message NEXT_PUBLIC_API_URL).
Local Abbreviation settle :=
  (Dashboard.settle toUpperCase number_toString null_read_message
     not_primitive_message).

Lemma analyzeToken_await (captured : Dashboard.State) :
  forallb is_white_space (Dashboard.tokenSymbol captured) = false ->
  exists before request,
    analyzeToken captured
    = Dashboard.Await before request
        (fun env st => Dashboard.finally (settle captured env st))
    /\ (forall st,
          Dashboard.loading (before st) = true
          /\ Dashboard.error (before st) = []
          /\ Dashboard.result (before st) = JNull
          /\ Dashboard.recentSearches (before st) = Dashboard.recentSearches st
          /\ Dashboard.truthfi_recent_searches (before st)
             = Dashboard.truthfi_recent_searches st
          /\ Dashboard.tokenSymbol (before st) = Dashboard.tokenSymbol st
          /\ Dashboard.trending (before st) = Dashboard.trending st
          /\ Dashboard.showTrending (before st) = Dashboard.showTrending st)
    /\ Dashboard.body request
       = JObject
           [(lit "token_symbol",
             JString (toUpperCase (Dashboard.tokenSymbol captured)));
            (lit "post_limit", JNumber (Num 50))].
Proof.
  intros H. unfold Dashboard.analyzeToken.
  destruct (trim (Dashboard.tokenSymbol captured)) eqn:E.
  - apply trim_blank in E. congruence.
  - simpl. do 2 eexists. split; [reflexivity|]. split; [|reflexivity].
    intros st. repeat split.
Qed.

(** The outcomes of a settled request: a result, or an error with its
    text. *)
Lemma settle_cases (captured st : Dashboard.State)
    (env : Dashboard.Environment) :
  (exists data,
     Dashboard.reply env = Dashboard.Responds true (Dashboard.BodyParses data)
     /\ settle captured env st
        = Dashboard.saveRecentSearch captured (Dashboard.setItem_throws env)
            (toUpperCase (Dashboard.tokenSymbol captured))
            (Dashboard.setResult data st))
  \/ (exists message,
        (forall data,
           Dashboard.reply env
           <> Dashboard.Responds true (Dashboard.BodyParses data))
        /\ settle captured env st
           = Dashboard.setError (or_else message Dashboard.generic_failure) st).
Proof.
  unfold Dashboard.settle, Dashboard.catch.
  destruct (Dashboard.reply env) as [message|[|] [message|data]].
  - right. exists message. split; [discriminate | reflexivity].
  - right. exists message. split; [discriminate | reflexivity].
  - left. exists data. split; reflexivity.
  - right. exists message. split; [discriminate | reflexivity].
  - right. destruct (get data (lit "detail")) as [|detail].
    + exists null_read_message. split; [discriminate | reflexivity].
    + destruct (ToString number_toString
                  (Dashboard.detail_or_default detail)) as [message|] eqn:T.
      * exists message. split; [discriminate | reflexivity].
      * exists not_primitive_message. split; [discriminate | reflexivity].
Qed.

(** A call that awaits was made with a symbol that is not blank. *)
Lemma await_not_blank (captured : Dashboard.State)
    (before : Dashboard.State -> Dashboard.State)
    (request : Dashboard.Request)
    (after : Dashboard.Environment -> Dashboard.State -> Dashboard.State) :
  analyzeToken captured = Dashboard.Await before request after ->
  forallb is_white_space (Dashboard.tokenSymbol captured) = false
  /\ after = (fun env st => Dashboard.finally (settle captured env st)).
Proof.
  intros Hrun.
  assert (Hsym : forallb is_white_space (Dashboard.tokenSymbol captured)
                 = false).
  { destruct (forallb is_white_space (Dashboard.tokenSymbol captured)) eqn:E;
      [|reflexivity].
    rewrite (analyzeToken_blank toUpperCase number_toString null_read_message
               not_primitive_message NEXT_PUBLIC_API_URL captured E) in Hrun.
    discriminate Hrun. }
  split; [exact Hsym|].
  destruct (analyzeToken_await captured Hsym) as [b [r [Hrun' _]]].
  rewrite Hrun in Hrun'. inversion Hrun'. reflexivity.
Qed.

(** X1.  A request goes out exactly when the symbol holds a character that is
    not white space, and then exactly one goes out. *)
Theorem analyzeToken_requests_iff (captured : Dashboard.State) :
  (exists c, In c (Dashboard.tokenSymbol captured)
             /\ is_white_space c = false)
  <-> (exists request,
         Dashboard.requests (analyzeToken captured) = [request]).
Proof.
  rewrite <- forallb_false_exists. split.
  - intros H. destruct (analyzeToken_await captured H)
      as [before [request [-> _]]].
    exists request. reflexivity.
  - intros [request H].
    destruct (forallb is_white_space (Dashboard.tokenSymbol captured)) eqn:E;
      [|reflexivity].
    rewrite (analyzeToken_blank toUpperCase number_toString null_read_message
               not_primitive_message NEXT_PUBLIC_API_URL captured E) in H.
    discriminate H.
Qed.

(** X2.  However the request ends, the page stops loading, its status line
    is cleared, and the input, the trending list and its panel are as they
    were. *)
Theorem analyzeToken_stops_loading
    (captured cur : Dashboard.State) (env : Dashboard.Environment) :
  forallb is_white_space (Dashboard.tokenSymbol captured) = false ->
  let final := Dashboard.finish (analyzeToken captured) env cur in
  Dashboard.loading final = false
  /\ Dashboard.loadingStatus final = []
  /\ Dashboard.tokenSymbol final = Dashboard.tokenSymbol cur
  /\ Dashboard.trending final = Dashboard.trending cur
  /\ Dashboard.showTrending final = Dashboard.showTrending cur.
Proof.
  intros H.
  destruct (analyzeToken_await captured H)
    as [before [request [-> [Hbefore _]]]].
  destruct (Hbefore cur) as [_ [_ [_ [_ [_ [Htok [Htr Hshow]]]]]]].
  cbn [Dashboard.finish].
  destruct (settle_cases captured (before cur) env)
    as [[data [_ ->]]|[message [_ ->]]].
  - unfold Dashboard.saveRecentSearch.
    destruct (Dashboard.setItem_throws env); cbn; auto.
  - cbn. auto.
Qed.

(** X3.  The answer to a call writes one of result and error and leaves
    the other as it stands when the answer arrives: a 2xx response with a
    body that parses sets the result to that body, anything else sets an
    error text that is not empty.  The call itself clears both when it
    starts, so for a call that runs alone the one left standing is empty. *)
Theorem analyzeToken_result_or_error
    (captured cur st : Dashboard.State) (env : Dashboard.Environment)
    (before : Dashboard.State -> Dashboard.State)
    (request : Dashboard.Request)
    (after : Dashboard.Environment -> Dashboard.State -> Dashboard.State) :
  analyzeToken captured = Dashboard.Await before request after ->
  ((exists data,
      Dashboard.reply env
      = Dashboard.Responds true (Dashboard.BodyParses data)
      /\ Dashboard.result (after env st) = data
      /\ Dashboard.error (after env st) = Dashboard.error st)
   \/ ((forall data,
          Dashboard.reply env
          <> Dashboard.Responds true (Dashboard.BodyParses data))
       /\ Dashboard.error (after env st) <> []
       /\ Dashboard.result (after env st) = Dashboard.result st))
  /\ Dashboard.error (before cur) = []
  /\ Dashboard.result (before cur) = JNull.
Proof.
  intros Hrun.
  destruct (await_not_blank captured before request after Hrun)
    as [Hsym ->].
  destruct (analyzeToken_await captured Hsym)
    as [before' [request' [Hrun' [Hbefore _]]]].
  rewrite Hrun in Hrun'. inversion Hrun'; subst before' request'.
  destruct (Hbefore cur) as [_ [Herr [Hres _]]].
  split; [|split; assumption].
  destruct (settle_cases captured st env)
    as [[data [Hreply ->]]|[message [Hreply ->]]].
  - left. exists data. split; [exact Hreply|].
    unfold Dashboard.saveRecentSearch.
    destruct (Dashboard.setItem_throws env); cbn; auto.
  - right. split; [exact Hreply|]. cbn. split; [|reflexivity].
    apply or_else_nonempty. discriminate.
Qed.

(** X4.  A request that fails, in whatever way, leaves the recent searches and
    what is stored of them as they were. *)
Theorem analyzeToken_failure_keeps_recent
    (captured cur : Dashboard.State) (env : Dashboard.Environment) :
  forallb is_white_space (Dashboard.tokenSymbol captured) = false ->
  (forall data,
     Dashboard.reply env
     <> Dashboard.Responds true (Dashboard.BodyParses data)) ->
  let final := Dashboard.finish (analyzeToken captured) env cur in
  Dashboard.recentSearches final = Dashboard.recentSearches cur
  /\ Dashboard.truthfi_recent_searches final
     = Dashboard.truthfi_recent_searches cur.
Proof.
  intros H Hfail.
  destruct (analyzeToken_await captured H)
    as [before [request [-> [Hbefore _]]]].
  destruct (Hbefore cur) as [_ [_ [_ [Hrec [Hsto _]]]]].
  cbn [Dashboard.finish].
  destruct (settle_cases captured (before cur) env)
    as [[data [Hreply _]]|[message [_ ->]]].
  - destruct (Hfail data Hreply).
  - cbn. auto.
Qed.

(** X5.  After a success the first recent search is the very symbol the request
    carried. *)
Theorem analyzeToken_saves_sent_symbol
    (captured cur : Dashboard.State) (env : Dashboard.Environment)
    (data : json) :
  forallb is_white_space (Dashboard.tokenSymbol captured) = false ->
  Dashboard.reply env = Dashboard.Responds true (Dashboard.BodyParses data) ->
  exists request sent,
    Dashboard.requests (analyzeToken captured) = [request]
    /\ get (Dashboard.body request) (lit "token_symbol")
       = Value (Some (JString sent))
    /\ hd_error
         (Dashboard.recentSearches
            (Dashboard.finish (analyzeToken captured) env cur))
       = Some sent.
Proof.
  intros H Hreply.
  destruct (analyzeToken_await captured H)
    as [before [request [-> [_ Hbody]]]].
  exists request, (toUpperCase (Dashboard.tokenSymbol captured)).
  split; [reflexivity|]. split; [rewrite Hbody; reflexivity|].
  cbn [Dashboard.finish]. unfold Dashboard.settle. rewrite Hreply.
  unfold Dashboard.saveRecentSearch.
  destruct (Dashboard.setItem_throws env); reflexivity.
Qed.

(** X6.  What the page shows for the bodies of a non-2xx response that
    hold no detail string.  A detail that is an object is shown as
    '[object Object]', unless the object has a [toString] key of its own:
    then [new Error] throws and the message of that TypeError is shown (the
    generic failure text when it is empty).  A detail that is the empty
    array gives the generic failure text, and the body [null] the message
    of the TypeError of the failed read. *)
Theorem analyzeToken_odd_details
    (captured cur : Dashboard.State) (env : Dashboard.Environment)
    (errorData : json) :
  forallb is_white_space (Dashboard.tokenSymbol captured) = false ->
  Dashboard.reply env
  = Dashboard.Responds false (Dashboard.BodyParses errorData) ->
  let final := Dashboard.finish (analyzeToken captured) env cur in
  (forall props,
     get errorData (lit "detail") = Value (Some (JObject props)) ->
     lookup (lit "toString") props = None ->
     Dashboard.error final = lit "[object Object]")
  /\ (forall props own,
        get errorData (lit "detail") = Value (Some (JObject props)) ->
        lookup (lit "toString") props = Some own ->
        Dashboard.error final
        = or_else not_primitive_message Dashboard.generic_failure)
  /\ (get errorData (lit "detail") = Value (Some (JArray [])) ->
      Dashboard.error final = Dashboard.generic_failure)
  /\ (errorData = JNull ->
      Dashboard.error final
      = or_else null_read_message Dashboard.generic_failure).
Proof.
  intros H Hreply.
  destruct (analyzeToken_await captured H) as [before [request [-> _]]].
  cbn [Dashboard.finish]. unfold Dashboard.settle. rewrite Hreply.
  split; [|split; [|split]].
  - intros props -> Hown.
    cbn [Dashboard.detail_or_default truthy ToString]. rewrite Hown.
    reflexivity.
  - intros props own -> Hown.
    cbn [Dashboard.detail_or_default truthy ToString]. rewrite Hown.
    reflexivity.
  - intros ->. reflexivity.
  - intros ->. reflexivity.
Qed.

(** X7.  For a call that runs alone.  While its request is pending the
    loading card is shown, the error box is not, and the guard of the
    results block is false.  Once it is answered the loading card is gone,
    and the error box is never shown while the guard of the results block
    holds; the error box is hidden and the guard false, so that the page
    shows neither an error nor results, exactly when a 2xx response
    carried a falsy body. *)
Theorem analyzeToken_panels
    (captured cur : Dashboard.State) (env : Dashboard.Environment)
    (before : Dashboard.State -> Dashboard.State)
    (request : Dashboard.Request)
    (after : Dashboard.Environment -> Dashboard.State -> Dashboard.State) :
  analyzeToken captured = Dashboard.Await before request after ->
  let pending := before cur in
  let final := after env pending in
  (Dashboard.loadingShown pending = true
   /\ Dashboard.errorShown pending = false
   /\ Dashboard.resultsGuard pending = false)
  /\ Dashboard.loadingShown final = false
  /\ (Dashboard.errorShown final = true ->
      Dashboard.resultsGuard final = false)
  /\ (Dashboard.errorShown final = false
      /\ Dashboard.resultsGuard final = false
      <-> exists data,
            Dashboard.reply env
            = Dashboard.Responds true (Dashboard.BodyParses data)
            /\ truthy data = false).
Proof.
  intros Hrun pending final.
  assert (Hsym : forallb is_white_space (Dashboard.tokenSymbol captured)
                 = false).
  { destruct (forallb is_white_space (Dashboard.tokenSymbol captured)) eqn:E;
      [|reflexivity].
    rewrite (analyzeToken_blank toUpperCase number_toString null_read_message
               not_primitive_message NEXT_PUBLIC_API_URL captured E) in Hrun.
    discriminate Hrun. }
  destruct (analyzeToken_await captured Hsym)
    as [before' [request' [Hrun' [Hbefore _]]]].
  rewrite Hrun in Hrun'. inversion Hrun'; subst before' request' after.
  destruct (Hbefore cur) as [Hload [Herr [Hres _]]].
  fold pending in Hload, Herr, Hres.
  unfold Dashboard.loadingShown, Dashboard.errorShown, Dashboard.resultsGuard.
  split; [rewrite Hload, Herr, Hres; repeat split|].
  unfold final.
  destruct (settle_cases captured pending env)
    as [[data [Hreply ->]]|[message [Hreply ->]]].
  - assert (Hfin :
      Dashboard.loading
        (Dashboard.finally
           (Dashboard.saveRecentSearch captured (Dashboard.setItem_throws env)
              (toUpperCase (Dashboard.tokenSymbol captured))
              (Dashboard.setResult data pending))) = false
      /\ Dashboard.error
           (Dashboard.finally
              (Dashboard.saveRecentSearch captured
                 (Dashboard.setItem_throws env)
                 (toUpperCase (Dashboard.tokenSymbol captured))
                 (Dashboard.setResult data pending))) = []
      /\ Dashboard.result
           (Dashboard.finally
              (Dashboard.saveRecentSearch captured
                 (Dashboard.setItem_throws env)
                 (toUpperCase (Dashboard.tokenSymbol captured))
                 (Dashboard.setResult data pending))) = data).
    { unfold Dashboard.saveRecentSearch.
      destruct (Dashboard.setItem_throws env); cbn; auto. }
    destruct Hfin as [-> [-> ->]]. simpl.
    split; [reflexivity|]. split; [discriminate|].
    rewrite andb_true_r. split.
    + intros [_ Hfalsy]. exists data. auto.
    + intros [data' [Hreply' Hfalsy]]. rewrite Hreply in Hreply'.
      inversion Hreply'; subst data'. auto.
  - cbn. rewrite Hres. simpl.
    split; [reflexivity|]. split; [reflexivity|]. split.
    + intros [Hshown _]. exfalso.
      change (truthy_string (or_else message Dashboard.generic_failure) = false)
        in Hshown.
      assert (or_else message Dashboard.generic_failure <> []) as Hne
        by (apply or_else_nonempty; discriminate).
      destruct (or_else message Dashboard.generic_failure);
        [tauto | discriminate Hshown].
    + intros [data [Hreply' _]]. destruct (Hreply data Hreply').
Qed.

(** X8.  The Analyze button, when enabled, sends a request; the Enter key
    sends one even while an analysis is loading and the button is
    disabled; every other key does nothing. *)
Theorem enter_bypasses_disabled_button (captured : Dashboard.State) :
  (Dashboard.analyzeDisabled captured = false ->
   exists request, Dashboard.requests (analyzeToken captured) = [request])
  /\ (Dashboard.loading captured = true ->
      forallb is_white_space (Dashboard.tokenSymbol captured) = false ->
      Dashboard.analyzeDisabled captured = true
      /\ exists run request,
           onKeyPress (lit "Enter") captured = Some run
           /\ Dashboard.requests run = [request])
  /\ (forall key, key <> lit "Enter" -> onKeyPress key captured = None).
Proof.
  split; [|split].
  - unfold Dashboard.analyzeDisabled. intros Hen.
    apply orb_false_iff in Hen. destruct Hen as [_ Hen].
    apply negb_false_iff in Hen.
    assert (forallb is_white_space (Dashboard.tokenSymbol captured) = false)
      as Hsym.
    { apply not_true_iff_false. intros Hb. apply trim_blank in Hb.
      rewrite Hb in Hen. discriminate Hen. }
    destruct (analyzeToken_await captured Hsym) as [b [r [-> _]]].
    exists r. reflexivity.
  - intros Hload Hsym. split.
    + unfold Dashboard.analyzeDisabled. rewrite Hload. reflexivity.
    + destruct (analyzeToken_await captured Hsym) as [b [r [Hrun _]]].
      exists (analyzeToken captured), r. split; [reflexivity|].
      rewrite Hrun. reflexivity.
  - intros key Hkey. unfold Dashboard.onKeyPress.
    rewrite (str_eqb_false _ _ Hkey). reflexivity.
Qed.

(** X10.  A token picked from the trending list or from the recent searches is
    put into the input as it is, and the error is cleared; an analysis
    started then asks for its upper-case form. *)
Theorem picked_symbol_is_sent_in_upper_case
    (st : Dashboard.State) (token : Dashboard.TrendingToken)
    (recent : js_string) :
  (forallb is_white_space (Dashboard.symbol token) = false ->
   let picked := Dashboard.selectTrending token st in
   Dashboard.tokenSymbol picked = Dashboard.symbol token
   /\ Dashboard.error picked = []
   /\ Dashboard.showTrending picked = false
   /\ exists request,
        Dashboard.requests (analyzeToken picked) = [request]
        /\ get (Dashboard.body request) (lit "token_symbol")
           = Value (Some (JString (toUpperCase (Dashboard.symbol token)))))
  /\ (forallb is_white_space recent = false ->
      let picked := Dashboard.selectRecent recent st in
      Dashboard.tokenSymbol picked = recent
      /\ Dashboard.error picked = []
      /\ exists request,
           Dashboard.requests (analyzeToken picked) = [request]
           /\ get (Dashboard.body request) (lit "token_symbol")
              = Value (Some (JString (toUpperCase recent)))).
Proof.
  split; intros Hsym picked.
  - split; [reflexivity|]. split; [reflexivity|]. split; [reflexivity|].
    destruct (analyzeToken_await picked Hsym) as [b [r [-> [_ Hbody]]]].
    exists r. split; [reflexivity|]. rewrite Hbody. reflexivity.
  - split; [reflexivity|]. split; [reflexivity|].
    destruct (analyzeToken_await picked Hsym) as [b [r [-> [_ Hbody]]]].
    exists r. split; [reflexivity|]. rewrite Hbody. reflexivity.
Qed.

Lemma finally_settle_ok (captured st : Dashboard.State)
    (env : Dashboard.Environment) (data : json) :
  Dashboard.reply env = Dashboard.Responds true (Dashboard.BodyParses data) ->
  let final := Dashboard.finally (settle captured env st) in
  Dashboard.recentSearches final
  = Dashboard.updated (Dashboard.recentSearches captured)
      (toUpperCase (Dashboard.tokenSymbol captured))
  /\ Dashboard.result final = data
  /\ Dashboard.error final = Dashboard.error st
  /\ Dashboard.loading final = false.
Proof.
  intros Hreply. unfold Dashboard.settle. rewrite Hreply.
  unfold Dashboard.saveRecentSearch.
  destruct (Dashboard.setItem_throws env); repeat split.
Qed.

Lemma finally_settle_failed (captured st : Dashboard.State)
    (env : Dashboard.Environment) :
  (forall data,
     Dashboard.reply env
     <> Dashboard.Responds true (Dashboard.BodyParses data)) ->
  let final := Dashboard.finally (settle captured env st) in
  Dashboard.recentSearches final = Dashboard.recentSearches st
  /\ Dashboard.result final = Dashboard.result st
  /\ Dashboard.error final <> []
  /\ Dashboard.loading final = false.
Proof.
  intros Hfail.
  destruct (settle_cases captured st env)
    as [[data [Hreply _]]|[message [_ ->]]].
  - destruct (Hfail data Hreply).
  - cbn. repeat split. apply or_else_nonempty. discriminate.
Qed.

(** X9.  Two analyses that overlap and both succeed record only one
    symbol.  Each call saves the list it read when it was made, and the
    second was made before the first was answered, so both start from the
    old list: the page ends with the old list updated with the symbol of
    the call that is answered last, and with that call's body as result.
    The symbol of the other call, unless it was listed before, is not
    among the recent searches. *)
Theorem overlapping_analyses_lose_a_search
    (first second cur : Dashboard.State)
    (between : Dashboard.State -> Dashboard.State)
    (first_answered_first : bool)
    (env1 env2 : Dashboard.Environment) (data1 data2 : json) :
  forallb is_white_space (Dashboard.tokenSymbol first) = false ->
  forallb is_white_space (Dashboard.tokenSymbol second) = false ->
  Dashboard.reply env1
  = Dashboard.Responds true (Dashboard.BodyParses data1) ->
  Dashboard.reply env2
  = Dashboard.Responds true (Dashboard.BodyParses data2) ->
  Dashboard.recentSearches first = Dashboard.recentSearches cur ->
  Dashboard.recentSearches second = Dashboard.recentSearches cur ->
  let final :=
    Dashboard.overlap (analyzeToken first) between (analyzeToken second)
      first_answered_first env1 env2 cur in
  let sent1 := toUpperCase (Dashboard.tokenSymbol first) in
  let sent2 := toUpperCase (Dashboard.tokenSymbol second) in
  let last := if first_answered_first then sent2 else sent1 in
  let lost := if first_answered_first then sent1 else sent2 in
  Dashboard.recentSearches final
  = Dashboard.updated (Dashboard.recentSearches cur) last
  /\ Dashboard.result final
     = (if first_answered_first then data2 else data1)
  /\ (sent1 <> sent2 -> ~ In lost (Dashboard.recentSearches cur) ->
      ~ In lost (Dashboard.recentSearches final)).
Proof.
  intros H1 H2 Hreply1 Hreply2 Hsame1 Hsame2 final sent1 sent2 last lost.
  assert (Hlist : Dashboard.recentSearches final
                  = Dashboard.updated (Dashboard.recentSearches cur) last
                  /\ Dashboard.result final
                     = (if first_answered_first then data2 else data1)).
  { unfold final, last.
    destruct (analyzeToken_await first H1) as [b1 [r1 [-> _]]].
    destruct (analyzeToken_await second H2) as [b2 [r2 [-> _]]].
    cbn [Dashboard.overlap]. unfold sent1, sent2.
    destruct first_answered_first; cbn beta zeta.
    - destruct (finally_settle_ok second
                  (Dashboard.finally
                     (settle first env1 (b2 (between (b1 cur)))))
                  env2 data2 Hreply2) as [-> [-> _]].
      rewrite Hsame2. split; reflexivity.
    - destruct (finally_settle_ok first
                  (Dashboard.finally
                     (settle second env2 (b2 (between (b1 cur)))))
                  env1 data1 Hreply1) as [-> [-> _]].
      rewrite Hsame1. split; reflexivity. }
  destruct Hlist as [Hlist Hres].
  split; [exact Hlist|]. split; [exact Hres|].
  intros Hneq Hnot Hin. rewrite Hlist in Hin.
  apply updated_sound in Hin. unfold last, lost in *.
  destruct first_answered_first; destruct Hin as [Heq|Hin]; auto.
Qed.


End AnalyzeTokenProperties.

(** * Further examples *)

Example updated_twice :
  Dashboard.updated
    (Dashboard.updated [lit "A"; lit "B"; lit "C"; lit "D"; lit "E"] (lit "F"))
    (lit "F")
  = [lit "F"; lit "A"; lit "B"; lit "C"; lit "D"].
Proof. reflexivity. Qed.

Example displaySentiment_keeps_later_underscores :
  Dashboard.displaySentiment (lit "very_bullish_now") = lit "very bullish_now".
Proof. reflexivity. Qed.

Example risk_levels_are_case_sensitive :
  Dashboard.getRiskColor (lit "LOW") = lit "text-gray-600"
  /\ Dashboard.getRiskColor (lit "low") = lit "text-green-600"
  /\ Dashboard.getRiskIcon (lit "critical") = Dashboard.AlertCircle.
Proof. repeat split. Qed.

Example loadTrending_ignores_status :
  Dashboard.loadTrending_settle
    (Dashboard.Responds false
       (Dashboard.BodyParses
          (JObject [(lit "trending", JArray [JString (lit "x")])])))
  = Dashboard.Shown (JArray [JString (lit "x")])
  /\ Dashboard.loadTrending_settle
       (Dashboard.Responds true (Dashboard.BodyParses Samples.no_data))
     = Dashboard.Untouched.
Proof. split; reflexivity. Qed.

Example untrimmed_symbol_is_sent :
  Dashboard.requests
    (Samples.analyzeToken
       (Dashboard.onChange Samples.toUpperCase_ascii (lit " btc ")
          Dashboard.initial))
  = [Dashboard.mkRequest (lit "http://localhost:8000/api/analyze")
       (lit "POST") [(lit "Content-Type", lit "application/json")]
       (JObject [(lit "token_symbol", JString (lit " BTC "));
                 (lit "post_limit", JNumber (Num 50))])].
Proof. reflexivity. Qed.

Lemma typed_btc_not_blank :
  forallb is_white_space (Dashboard.tokenSymbol Samples.typed_btc) = false.
Proof. reflexivity. Defined.

Lemma updated_rearranges_witness :
  NoDup [lit "ETH"; lit "BTC"]
  /\ In (lit "BTC") [lit "ETH"; lit "BTC"]
  /\ Permutation (Dashboard.updated [lit "ETH"; lit "BTC"] (lit "BTC"))
       [lit "ETH"; lit "BTC"].
Proof.
  assert (Hnd : NoDup [lit "ETH"; lit "BTC"]).
  { constructor; [|constructor; [intros []|constructor]].
    intros [E|[]]. vm_compute in E. discriminate E. }
  assert (Hin : In (lit "BTC") [lit "ETH"; lit "BTC"])
    by (right; left; reflexivity).
  split; [exact Hnd|]. split; [exact Hin|].
  apply (updated_rearranges [lit "ETH"; lit "BTC"] (lit "BTC") Hnd Hin).
  simpl. lia.
Defined.

Lemma getScoreColor_monotone_witness :
  (60 <= 80)%Q
  /\ Dashboard.getScoreColor (Num 80) <> lit "#ef4444"
  /\ Dashboard.getScoreColor (Num 80) <> lit "#f97316".
Proof.
  assert (H : (60 <= 80)%Q) by (unfold Qle; simpl; lia).
  split; [exact H|].
  apply (proj2 (proj2 (getScoreColor_monotone 60 80 H))); discriminate.
Defined.

Lemma displaySentiment_first_underscore_witness :
  ~ In 0x5F%N (lit "very")
  /\ Dashboard.displaySentiment (lit "very" ++ 0x5F%N :: lit "bullish_now")
     = lit "very" ++ 0x20%N :: lit "bullish_now".
Proof.
  assert (H : ~ In 0x5F%N (lit "very")).
  { simpl. intros [E|[E|[E|[E|[]]]]]; discriminate E. }
  split; [exact H|].
  exact (proj1 (displaySentiment_first_underscore (lit "very")
                  (lit "bullish_now") H)).
Defined.

Lemma loadTrending_at_most_ten_witness :
  get (JObject [(lit "trending", JArray (repeat JNull 11))]) (lit "trending")
  = Value (Some (JArray (repeat JNull 11)))
  /\ Dashboard.loadTrending_settle
       (Dashboard.Responds true
          (Dashboard.BodyParses
             (JObject [(lit "trending", JArray (repeat JNull 11))])))
     = Dashboard.Shown (JArray (repeat JNull 10)).
Proof.
  split; [reflexivity|].
  exact (proj1 (loadTrending_at_most_ten true
                  (JObject [(lit "trending", JArray (repeat JNull 11))])
                  (repeat JNull 11) eq_refl)).
Defined.

Lemma analyzeToken_stops_loading_witness :
  forallb is_white_space (Dashboard.tokenSymbol Samples.typed_btc) = false
  /\ Dashboard.loading
       (Dashboard.finish (Samples.analyzeToken Samples.typed_btc)
          (Samples.not_ok Samples.no_data) Samples.loading_btc)
     = false.
Proof.
  split; [exact typed_btc_not_blank|].
  exact (proj1 (analyzeToken_stops_loading Samples.toUpperCase_ascii
                  Samples.number_toString_special Samples.null_read_message
                  Samples.not_primitive_message [] Samples.typed_btc Samples.loading_btc
                  (Samples.not_ok Samples.no_data) typed_btc_not_blank)).
Defined.

Lemma analyzeToken_result_or_error_witness :
  exists before request after,
    Samples.analyzeToken Samples.typed_btc
    = Dashboard.Await before request after
    /\ Dashboard.error
         (after (Samples.not_ok Samples.no_data) Samples.loading_btc)
       <> []
    /\ Dashboard.result
         (after (Samples.not_ok Samples.no_data) Samples.loading_btc)
       = Dashboard.result Samples.loading_btc.
Proof.
  do 3 eexists. split; [reflexivity|].
  destruct (analyzeToken_result_or_error Samples.toUpperCase_ascii
              Samples.number_toString_special Samples.null_read_message
              Samples.not_primitive_message []
              Samples.typed_btc Samples.typed_btc Samples.loading_btc
              (Samples.not_ok Samples.no_data) _ _ _ eq_refl)
    as [[[data [Hreply _]]|[_ [Herr Hres]]] _].
  - discriminate Hreply.
  - split; [exact Herr | exact Hres].
Defined.

Lemma analyzeToken_failure_keeps_recent_witness :
  forallb is_white_space (Dashboard.tokenSymbol Samples.typed_btc) = false
  /\ (forall data,
        Dashboard.reply (Samples.not_ok Samples.no_data)
        <> Dashboard.Responds true (Dashboard.BodyParses data))
  /\ Dashboard.recentSearches
       (Dashboard.finish (Samples.analyzeToken Samples.typed_btc)
          (Samples.not_ok Samples.no_data) Samples.typed_btc)
     = [lit "ETH"; lit "BTC"].
Proof.
  assert (H : forall data,
            Dashboard.reply (Samples.not_ok Samples.no_data)
            <> Dashboard.Responds true (Dashboard.BodyParses data))
    by (intros data; discriminate).
  split; [exact typed_btc_not_blank|]. split; [exact H|].
  exact (proj1 (analyzeToken_failure_keeps_recent Samples.toUpperCase_ascii
                  Samples.number_toString_special Samples.null_read_message
                  Samples.not_primitive_message [] Samples.typed_btc Samples.typed_btc
                  (Samples.not_ok Samples.no_data) typed_btc_not_blank H)).
Defined.

Lemma analyzeToken_saves_sent_symbol_witness :
  forallb is_white_space (Dashboard.tokenSymbol Samples.typed_btc) = false
  /\ exists request sent,
       Dashboard.requests (Samples.analyzeToken Samples.typed_btc) = [request]
       /\ get (Dashboard.body request) (lit "token_symbol")
          = Value (Some (JString sent))
       /\ hd_error
            (Dashboard.recentSearches
               (Dashboard.finish (Samples.analyzeToken Samples.typed_btc)
                  (Samples.ok (JObject [])) Samples.typed_btc))
          = Some sent.
Proof.
  split; [exact typed_btc_not_blank|].
  exact (analyzeToken_saves_sent_symbol Samples.toUpperCase_ascii
           Samples.number_toString_special Samples.null_read_message Samples.not_primitive_message []
           Samples.typed_btc Samples.typed_btc (Samples.ok (JObject []))
           (JObject []) typed_btc_not_blank eq_refl).
Defined.

Lemma analyzeToken_odd_details_witness :
  forallb is_white_space (Dashboard.tokenSymbol Samples.typed_btc) = false
  /\ Dashboard.error
       (Dashboard.finish (Samples.analyzeToken Samples.typed_btc)
          (Samples.not_ok Samples.validation_error) Samples.typed_btc)
     = lit "[object Object]"
  /\ Dashboard.error
       (Dashboard.finish (Samples.analyzeToken Samples.typed_btc)
          (Samples.not_ok Samples.toString_detail) Samples.typed_btc)
     = lit "Cannot convert object to primitive value".
Proof.
  split; [exact typed_btc_not_blank|]. split.
  - exact (proj1 (analyzeToken_odd_details Samples.toUpperCase_ascii
                    Samples.number_toString_special Samples.null_read_message
                    Samples.not_primitive_message []
                    Samples.typed_btc Samples.typed_btc
                    (Samples.not_ok Samples.validation_error)
                    Samples.validation_error typed_btc_not_blank eq_refl)
             [(lit "msg", JString (lit "field required"))] eq_refl eq_refl).
  - exact (proj1 (proj2
             (analyzeToken_odd_details Samples.toUpperCase_ascii
                Samples.number_toString_special Samples.null_read_message
                Samples.not_primitive_message []
                Samples.typed_btc Samples.typed_btc
                (Samples.not_ok Samples.toString_detail)
                Samples.toString_detail typed_btc_not_blank eq_refl))
             [(lit "toString", JString (lit "x"))] (JString (lit "x"))
             eq_refl eq_refl).
Defined.

Lemma analyzeToken_panels_witness :
  exists before request after,
    Samples.analyzeToken Samples.typed_btc
    = Dashboard.Await before request after
    /\ Dashboard.loadingShown (before Samples.typed_btc) = true
    /\ Dashboard.loadingShown
         (after (Samples.ok JNull) (before Samples.typed_btc)) = false
    /\ Dashboard.errorShown
         (after (Samples.ok JNull) (before Samples.typed_btc)) = false
    /\ Dashboard.resultsGuard
         (after (Samples.ok JNull) (before Samples.typed_btc)) = false.
Proof.
  do 3 eexists. split; [reflexivity|].
  destruct (analyzeToken_panels Samples.toUpperCase_ascii
              Samples.number_toString_special Samples.null_read_message Samples.not_primitive_message []
              Samples.typed_btc Samples.typed_btc (Samples.ok JNull)
              _ _ _ eq_refl)
    as [[Hpending _] [Hload [_ Hnone]]].
  split; [exact Hpending|]. split; [exact Hload|].
  apply Hnone. exists JNull. split; reflexivity.
Defined.

Lemma overlapping_analyses_lose_a_search_witness :
  Dashboard.recentSearches
    (Dashboard.overlap
       (Samples.analyzeToken Samples.typed_sol)
       (Dashboard.onChange Samples.toUpperCase_ascii (lit "doge"))
       (Samples.analyzeToken Samples.typed_doge) false
       (Samples.ok (JObject [])) (Samples.ok (JObject []))
       Samples.typed_sol)
  = [lit "SOL"]
  /\ ~ In (lit "DOGE")
         (Dashboard.recentSearches
            (Dashboard.overlap
               (Samples.analyzeToken Samples.typed_sol)
               (Dashboard.onChange Samples.toUpperCase_ascii (lit "doge"))
               (Samples.analyzeToken Samples.typed_doge) false
               (Samples.ok (JObject [])) (Samples.ok (JObject []))
               Samples.typed_sol)).
Proof.
  destruct (overlapping_analyses_lose_a_search Samples.toUpperCase_ascii
              Samples.number_toString_special Samples.null_read_message
              Samples.not_primitive_message []
              Samples.typed_sol Samples.typed_doge Samples.typed_sol
              (Dashboard.onChange Samples.toUpperCase_ascii (lit "doge"))
              false
              (Samples.ok (JObject [])) (Samples.ok (JObject []))
              (JObject []) (JObject [])
              eq_refl eq_refl eq_refl eq_refl eq_refl eq_refl)
    as [Hlist [_ Hlost]].
  split; [exact Hlist|].
  apply Hlost; [intros E; vm_compute in E; discriminate E | intros []].
Defined.


Lemma enter_bypasses_disabled_button_witness :
  Dashboard.loading Samples.loading_btc = true
  /\ Dashboard.analyzeDisabled Samples.loading_btc = true
  /\ exists run request,
       Dashboard.onKeyPress Samples.toUpperCase_ascii
         Samples.number_toString_special Samples.null_read_message Samples.not_primitive_message []
         (lit "Enter") Samples.loading_btc = Some run
       /\ Dashboard.requests run = [request].
Proof.
  split; [reflexivity|].
  exact (proj1 (proj2 (enter_bypasses_disabled_button
                         Samples.toUpperCase_ascii
                         Samples.number_toString_special
                         Samples.null_read_message Samples.not_primitive_message [] Samples.loading_btc))
           eq_refl eq_refl).
Defined.

Lemma picked_symbol_is_sent_in_upper_case_witness :
  forallb is_white_space (Dashboard.symbol Samples.trending_btc) = false
  /\ Dashboard.tokenSymbol
       (Dashboard.selectTrending Samples.trending_btc Samples.typed_blanks)
     = lit "btc"
  /\ exists request,
       Dashboard.requests
         (Samples.analyzeToken
            (Dashboard.selectTrending Samples.trending_btc
               Samples.typed_blanks))
       = [request]
       /\ get (Dashboard.body request) (lit "token_symbol")
          = Value (Some (JString (lit "BTC"))).
Proof.
  split; [reflexivity|].
  destruct (proj1 (picked_symbol_is_sent_in_upper_case
                     Samples.toUpperCase_ascii
                     Samples.number_toString_special
                     Samples.null_read_message Samples.not_primitive_message [] Samples.typed_blanks
                     Samples.trending_btc []) eq_refl)
    as [Htok [_ [_ Hreq]]].
  split; [exact Htok | exact Hreq].
Defined.
